(** * Flame & Wrap Co. backend: menu, reviews and order intake

    A shallow embedding of [schemas.py] (the pydantic record shapes) and of
    [main.py] (the request handlers), with the theorems that relate them to
    the written specification.

    Layout:
    - module [Py]: Python values, exceptions, binary64 floats and the few
      string operations the handlers use;
    - pydantic: field declarations and the validation that [BaseModel]
      runs on them (lax mode), [model_dump];
    - the classes of [schemas.py];
    - effects: the calls a handler makes to the outside (the [database]
      module, [os.getenv]) as events answered by an environment;
    - the handlers of [main.py];
    - an in-memory document store to run the handlers on;
    - the vocabulary of the statements, then the lemmas and theorems. *)

From Stdlib Require Import ZArith List String Ascii Bool Lia.
From Stdlib Require Import Floats.SpecFloat.
From Stdlib Require Import Numbers.DecimalString.
Import ListNotations.

Open Scope string_scope.
Open Scope Z_scope.

#[local] Set Warnings "-register-all".

(* ------------------------------------------------------------------ *)
(** ** Python values *)

Module Py.

(** Python's [float] is an IEEE-754 binary64 number. *)
Definition float : Type := spec_float.
Definition prec : Z := 53.
Definition emax : Z := 1024.

(** The float nearest to an integer [n] (round to nearest even); an
    infinity when [n] is beyond the range. *)
Definition float_of_int (n : Z) : float := binary_normalize prec emax n 0 false.

(** [float(n)]: Python refuses an integer too large for a float
    ([OverflowError]). *)
Definition float_of_int_checked (n : Z) : option float :=
  match float_of_int n with
  | S754_infinity _ => None
  | x => Some x
  end.

(** The float a decimal literal [m / 10^k] denotes, for [m] and [10^k]
    below [2^53]: the correctly rounded quotient.  [decimal 1195 2] is
    the literal [11.95]. *)
Definition decimal (m : Z) (k : nat) : float :=
  SFdiv prec emax (float_of_int m) (float_of_int (10 ^ Z.of_nat k)).

(** The integer a finite float with no fractional part equals. *)
Definition integral_value (x : float) : option Z :=
  match x with
  | S754_zero _ => Some 0
  | S754_finite s m e =>
      let sign := if s then (-1) else 1 in
      if 0 <=? e then Some (sign * (Zpos m * 2 ^ e))
      else if Zpos m mod 2 ^ (- e) =? 0
           then Some (sign * (Zpos m / 2 ^ (- e)))
           else None
  | _ => None
  end.

(** The conversion of a float to an [int] in lax mode: the float must be
    finite, have no fractional part, and lie strictly between [-2^63]
    and [2^63] (the 64-bit range; beyond it the conversion is refused,
    [int_parsing_size]). *)
Definition int_of_float (x : float) : option Z :=
  match integral_value x with
  | Some z => if (- 2 ^ 63 <? z) && (z <? 2 ^ 63) then Some z else None
  | None => None
  end.

(** JSON-like Python objects, and instances of pydantic model classes
    ([VModel cls attrs]: the class name and the attributes in declaration
    order). *)
Inductive value : Type :=
| VNone
| VBool (b : bool)
| VInt (n : Z)
| VFloat (x : float)
| VStr (s : string)
| VList (l : list value)
| VDict (d : list (string * value))
| VModel (cls : string) (attrs : list (string * value)).

Definition dict : Type := list (string * value).

(** [d.get(k)]: the first binding of [k]. *)
Fixpoint dict_get (k : string) (d : dict) : option value :=
  match d with
  | [] => None
  | (k', v) :: d' => if String.eqb k k' then Some v else dict_get k d'
  end.

(** [d[k] = v]: replaces the binding in place, or appends a new one. *)
Fixpoint dict_set (k : string) (v : value) (d : dict) : dict :=
  match d with
  | [] => [(k, v)]
  | (k', v') :: d' =>
      if String.eqb k k' then (k, v) :: d' else (k', v') :: dict_set k v d'
  end.

(** [del d[k]] when present. *)
Fixpoint dict_remove (k : string) (d : dict) : dict :=
  match d with
  | [] => []
  | (k', v) :: d' =>
      if String.eqb k k' then dict_remove k d' else (k', v) :: dict_remove k d'
  end.

Definition dict_keys (d : dict) : list string := map fst d.

(** Exceptions deriving from [Exception].  [ImportError] stands for the
    class and its subclasses ([ModuleNotFoundError]); [OtherException]
    for every class outside the three named ones.  The string is what
    [str(e)] gives; a [ValidationError] carries the title of its class
    and its text. *)
Inductive exn : Type :=
| ImportError (msg : string)
| TypeError (msg : string)
| ValidationError (title : string) (text : string)
| OtherException (cls : string) (msg : string).

Definition exn_str (e : exn) : string :=
  match e with
  | ImportError m => m
  | TypeError m => m
  | ValidationError _ text => text
  | OtherException _ m => m
  end.

Definition is_ImportError (e : exn) : bool :=
  match e with ImportError _ => true | _ => false end.

(** The outcome of evaluating an expression: a value or a raised
    exception. *)
Inductive result (A : Type) : Type :=
| Ok (a : A)
| Raise (e : exn).
Arguments Ok {A} a.
Arguments Raise {A} e.

(** A list comprehension [[f(x) for x in l]]: the first exception raised
    ends it. *)
Fixpoint comprehension {A B} (f : A -> result B) (l : list A) : result (list B) :=
  match l with
  | [] => Ok []
  | x :: l' =>
      match f x with
      | Raise e => Raise e
      | Ok y =>
          match comprehension f l' with
          | Raise e => Raise e
          | Ok ys => Ok (y :: ys)
          end
      end
  end.

(** Strings are UTF-8 byte sequences; a character starts at every byte
    that is not a continuation byte [10xxxxxx]. *)
Definition is_continuation (c : ascii) : bool :=
  let n := N_of_ascii c in ((128 <=? n) && (n <? 192))%N.

(** [s[:n]]: the first [n] characters of [s]. *)
Fixpoint str_take (n : nat) (s : string) : string :=
  match s with
  | EmptyString => EmptyString
  | String c s' =>
      if is_continuation c then String c (str_take n s')
      else match n with
           | O => EmptyString
           | S n' => String c (str_take n' s')
           end
  end.

(** Truth value of [os.getenv(...)]: [None] and the empty string are
    false. *)
Definition truthy_env (o : option string) : bool :=
  match o with
  | None => false
  | Some s => negb (String.eqb s "")
  end.

End Py.
Import Py.

(* ------------------------------------------------------------------ *)
(** ** Pydantic: field declarations and validation *)

(** A field annotation.  [TDict] is a bare [dict]; [TModel m] is a
    nested model class. *)
Inductive ty : Type :=
| TStr
| TInt
| TFloat
| TDict
| TOptional (t : ty)
| TList (t : ty)
| TModel (m : model)

(** [class name(BaseModel)] with its fields in declaration order. *)
with model : Type :=
| Model (name : string) (fields : list field)

(** [name: t = Field(default, ge=, le=, description=)].  [default] is
    [None] for a required field ([...], or no default at all). *)
with field : Type :=
| Field (name : string) (t : ty) (default : option value)
        (ge le : option Z) (description : option string).

Definition model_name (m : model) : string :=
  match m with Model name _ => name end.

Definition model_fields (m : model) : list field :=
  match m with Model _ fields => fields end.

Definition field_name (f : field) : string :=
  match f with Field name _ _ _ _ _ => name end.

(** [x >= b] and [x <= b] on floats: false when [x] is NaN. *)
Definition float_ge (x : float) (b : Z) : bool :=
  match SFcompare x (float_of_int b) with
  | Some Gt | Some Eq => true
  | _ => false
  end.

Definition float_le (x : float) (b : Z) : bool :=
  match SFcompare x (float_of_int b) with
  | Some Lt | Some Eq => true
  | _ => false
  end.

(** The [ge] and [le] constraints of a field, on a value already
    converted to the field's type.  They constrain numbers only. *)
Definition check_ge (ge : option Z) (v : value) : bool :=
  match ge, v with
  | Some b, VInt n => b <=? n
  | Some b, VFloat x => float_ge x b
  | _, _ => true
  end.

Definition check_le (le : option Z) (v : value) : bool :=
  match le, v with
  | Some b, VInt n => n <=? b
  | Some b, VFloat x => float_le x b
  | _, _ => true
  end.

Definition int_of_bool (b : bool) : Z := if b then 1 else 0.

(** [Some] of every element, or [None] if one is missing. *)
Fixpoint all_some {A} (l : list (option A)) : option (list A) :=
  match l with
  | [] => Some []
  | None :: _ => None
  | Some x :: l' =>
      match all_some l' with
      | Some xs => Some (x :: xs)
      | None => None
      end
  end.

Section Backend.

(** Lax mode also accepts a [str] where a number is expected, when
    pydantic's parser reads a number in it.  The two parsers belong to
    pydantic and are taken as given. *)
Variable str_to_int : string -> option Z.
Variable str_to_float : string -> option float.

(** The text of the exception that the constructor of a class raises on
    given keyword arguments, [str(e)]: the library words it, and it is
    taken as given. *)
Variable error_text : model -> value -> string.

(** Validation of a value against an annotation in lax mode (the
    default): the converted value, or [None] when the value is refused.
    A model is built from a [dict] (missing fields take their default,
    keys that are not fields are ignored), and an instance of the class
    is taken as it is. *)
Fixpoint validate (t : ty) (v : value) {struct t} : option value :=
  match t with
  | TStr =>
      match v with
      | VStr _ => Some v
      | _ => None
      end
  | TInt =>
      match v with
      | VInt _ => Some v
      | VBool b => Some (VInt (int_of_bool b))
      | VFloat x => option_map VInt (int_of_float x)
      | VStr s => option_map VInt (str_to_int s)
      | _ => None
      end
  | TFloat =>
      match v with
      | VFloat _ => Some v
      | VInt n => option_map VFloat (float_of_int_checked n)
      | VBool b => Some (VFloat (float_of_int (int_of_bool b)))
      | VStr s => option_map VFloat (str_to_float s)
      | _ => None
      end
  | TDict =>
      match v with
      | VDict _ => Some v
      | _ => None
      end
  | TOptional t' =>
      match v with
      | VNone => Some VNone
      | _ => validate t' v
      end
  | TList t' =>
      match v with
      | VList l => option_map VList (all_some (map (validate t') l))
      | _ => None
      end
  | TModel m => validate_model m v
  end

with validate_model (m : model) (v : value) {struct m} : option value :=
  match m with
  | Model name fields =>
      match v with
      | VDict d =>
          option_map (VModel name)
            ((fix validate_fields (fs : list field) : option dict :=
                match fs with
                | [] => Some []
                | f :: fs' =>
                    match validate_field f d, validate_fields fs' with
                    | Some x, Some rest => Some ((field_name f, x) :: rest)
                    | _, _ => None
                    end
                end) fields)
      | VModel cls _ => if String.eqb cls name then Some v else None
      | _ => None
      end
  end

with validate_field (f : field) (d : dict) {struct f} : option value :=
  match f with
  | Field name t default ge le _ =>
      match dict_get name d with
      | None => default
      | Some v =>
          match validate t v with
          | Some v' => if check_ge ge v' && check_le le v' then Some v' else None
          | None => None
          end
      end
  end.

(** The fields of a model, one after the other: every field is tried,
    and a single refusal refuses the whole. *)
Fixpoint validate_fields (fs : list field) (d : dict) : option dict :=
  match fs with
  | [] => Some []
  | f :: fs' =>
      match validate_field f d, validate_fields fs' d with
      | Some x, Some rest => Some ((field_name f, x) :: rest)
      | _, _ => None
      end
  end.

(** The constructor call of a class on unpacked keyword arguments
    [kwargs]: the instance, or [ValidationError]; [TypeError] when
    [kwargs] is not a mapping. *)
Definition init (m : model) (kwargs : value) : result value :=
  match kwargs with
  | VDict _ =>
      match validate_model m kwargs with
      | Some obj => Ok obj
      | None => Raise (ValidationError (model_name m) (error_text m kwargs))
      end
  | _ => Raise (TypeError (error_text m kwargs))
  end.

(** [obj.model_dump()]: instances become dicts, all the way down. *)
Fixpoint model_dump (v : value) : value :=
  match v with
  | VModel _ attrs => VDict (map (fun kv => (fst kv, model_dump (snd kv))) attrs)
  | VDict d => VDict (map (fun kv => (fst kv, model_dump (snd kv))) d)
  | VList l => VList (map model_dump l)
  | _ => v
  end.

(** [Cls.model_json_schema()] is pydantic's; the handlers only pass its
    result on. *)
Variable model_json_schema : model -> value.

(* ------------------------------------------------------------------ *)
(** ** schemas.py: the app-specific classes

    ([User] and [Product], kept in the file as examples, are used by no
    handler.) *)

Definition MenuItem : model :=
  Model "MenuItem"
    [ Field "name" TStr None None None (Some "Dish name");
      Field "description" (TOptional TStr) (Some VNone) None None
            (Some "Short description");
      Field "price" TFloat None (Some 0) None (Some "Price in dollars");
      Field "category" TStr None None None
            (Some "Category, e.g., wraps, skewers, fries");
      Field "image" (TOptional TStr) (Some VNone) None None
            (Some "Image or video thumbnail URL");
      Field "media" (TOptional TStr) (Some VNone) None None
            (Some "Optional video loop URL");
      Field "rating" TFloat (Some (VFloat (decimal 48 1))) (Some 0) (Some 5)
            (Some "Average rating");
      Field "ratings_count" TInt (Some (VInt 0)) (Some 0) None
            (Some "Number of ratings") ].

Definition Review : model :=
  Model "Review"
    [ Field "name" TStr None None None (Some "Reviewer name");
      Field "avatar" (TOptional TStr) (Some VNone) None None
            (Some "Avatar image URL");
      Field "rating" TInt None (Some 1) (Some 5) (Some "Stars 1-5");
      Field "quote" TStr None None None (Some "Short testimonial");
      Field "platform" (TOptional TStr) (Some VNone) None None
            (Some "e.g., Google, Yelp") ].

Definition OrderItem : model :=
  Model "OrderItem"
    [ Field "item_id" (TOptional TStr) (Some VNone) None None
            (Some "ID of menu item if applicable");
      Field "name" TStr None None None None;
      Field "price" TFloat None None None None;
      Field "quantity" TInt (Some (VInt 1)) None None None;
      Field "options" (TOptional TDict) (Some VNone) None None None ].

Definition Order : model :=
  Model "Order"
    [ Field "items" (TList (TModel OrderItem)) None None None None;
      Field "subtotal" TFloat None None None None;
      Field "tax" TFloat None None None None;
      Field "total" TFloat None None None None;
      Field "customer_name" (TOptional TStr) (Some VNone) None None None;
      Field "customer_phone" (TOptional TStr) (Some VNone) None None None;
      Field "notes" (TOptional TStr) (Some VNone) None None None ].

(** ASCII lower case, [str.lower()] on class names. *)
Definition lower_ascii (c : ascii) : ascii :=
  let n := N_of_ascii c in
  if ((65 <=? n) && (n <=? 90))%N then ascii_of_N (n + 32) else c.

Fixpoint lower (s : string) : string :=
  match s with
  | EmptyString => EmptyString
  | String c s' => String (lower_ascii c) (lower s')
  end.

(** The naming convention of the module's docstring: the class name in
    lower case. *)
Definition collection_name (m : model) : string := lower (model_name m).

(* ------------------------------------------------------------------ *)
(** ** Effects: what a handler asks of the outside *)

(** The [db] object of the [database] module. *)
Inductive Database : Type := Db (id : nat).

(** Calls that leave the handler.  The answer type tells what can come
    back; a [result] answer may be an exception.  [Find db c f p] is
    [list(db[c].find(f, p))], [InsertMany db c docs] is
    [db[c].insert_many(docs)], and [CreateDocument c data] is
    [create_document(c, data)], which gives the identifier of the stored
    record as a [str] (the contract of the persistence collaborator;
    [OrderResponse.id] is an [Optional[str]]). *)
Inductive event : Type -> Type :=
| ImportDb : event (result (option Database))
| ImportCreateDocument : event (result unit)
| CreateDocument (collection : string) (data : value) : event (result string)
| Find (db : Database) (collection : string) (filter projection : value)
    : event (result (list value))
| InsertMany (db : Database) (collection : string) (docs : list value)
    : event (result unit)
| HasattrName (db : Database) : event (result bool)
| GetName (db : Database) : event (result value)
| ListCollectionNames (db : Database) : event (result (list value))
| Getenv (name : string) : event (option string).

(** A handler's run: it returns, or makes a call and goes on with the
    answer. *)
Inductive prog (A : Type) : Type :=
| Ret (a : A)
| Vis (X : Type) (e : event X) (k : X -> prog A).
Arguments Ret {A} a.
Arguments Vis {A X} e k.

Fixpoint pbind {A B} (p : prog A) (f : A -> prog B) : prog B :=
  match p with
  | Ret a => f a
  | Vis e k => Vis e (fun x => pbind (k x) f)
  end.

(** Code with local mutable state [S] and exceptions.  The state
    outlives an exception: what was assigned before a [raise] is still
    there in the [except] clause. *)
Definition M (S A : Type) : Type := S -> prog (result A * S).

Definition ret {S A} (a : A) : M S A := fun s => Ret (Ok a, s).

Definition bind {S A B} (m : M S A) (f : A -> M S B) : M S B :=
  fun s =>
    pbind (m s) (fun rs =>
      match fst rs with
      | Ok a => f a (snd rs)
      | Raise e => Ret (Raise e, snd rs)
      end).

(** [try: m  except Exception as e: h e]. *)
Definition try_except {S A} (m : M S A) (h : exn -> M S A) : M S A :=
  fun s =>
    pbind (m s) (fun rs =>
      match fst rs with
      | Ok a => Ret (Ok a, snd rs)
      | Raise e => h e (snd rs)
      end).

Definition lift {S A} (r : result A) : M S A := fun s => Ret (r, s).

(** A call that may raise, and one that cannot. *)
Definition call {S X} (e : event (result X)) : M S X :=
  fun s => Vis e (fun r => Ret (r, s)).

Definition perform {S X} (e : event X) : M S X :=
  fun s => Vis e (fun x => Ret (Ok x, s)).

Definition get {S} : M S S := fun s => Ret (Ok s, s).
Definition put {S} (s : S) : M S unit := fun _ => Ret (Ok tt, s).

Notation "x <- m ;; f" := (bind m (fun x => f))
  (at level 61, m at next level, right associativity).
Notation "m ;; f" := (bind m (fun _ => f))
  (at level 61, right associativity).

(** The outside: every call is answered from a state [W], which the
    answer may change. *)
Definition env (W : Type) : Type := forall X, event X -> W -> X * W.

Inductive call_record : Type :=
| Called {X : Type} (e : event X).

(** Running a handler against an environment: the outcome, the final
    state of the outside, and the calls made, in order. *)
Fixpoint run {W A} (E : env W) (p : prog A) (w : W) : A * W * list call_record :=
  match p with
  | Ret a => (a, w, [])
  | Vis e k =>
      let xw := E _ e w in
      let r := run E (k (fst xw)) (snd xw) in
      (fst (fst r), snd (fst r), Called e :: snd r)
  end.

Definition outcome {W A} (r : A * W * list call_record) : A := fst (fst r).
Definition final {W A} (r : A * W * list call_record) : W := snd (fst r).
Definition calls {W A} (r : A * W * list call_record) : list call_record := snd r.

(** The collection a persistence access works on. *)
Definition collection_of (c : call_record) : option string :=
  match c with
  | Called e =>
      match e with
      | CreateDocument collection _ => Some collection
      | Find _ collection _ _ => Some collection
      | InsertMany _ collection _ => Some collection
      | _ => None
      end
  end.

(** A function call: the body runs on its own local state, and the
    caller sees what it returns or raises. *)
Definition local {S A} (s0 : S) (body : M S A) : prog (result A) :=
  pbind (body s0) (fun rs => Ret (fst rs)).

(* ------------------------------------------------------------------ *)
(** ** main.py: the handlers *)

Definition read_root : prog (result value) :=
  local tt (ret (VDict [("message", VStr "Flame & Wrap Co. backend running")])).

Definition hello : prog (result value) :=
  local tt (ret (VDict [("message", VStr "Hello from the backend API!")])).

(** [response[k] = v] on the local [response] dict. *)
Definition setitem (k : string) (v : value) : M dict unit :=
  fun response => Ret (Ok tt, dict_set k v response).

Definition test_database_response0 : dict :=
  [ ("backend", VStr "✅ Running");
    ("database", VStr "❌ Not Available");
    ("database_url", VNone);
    ("database_name", VNone);
    ("connection_status", VStr "Not Connected");
    ("collections", VList []) ].

Definition test_database : prog (result value) :=
  local test_database_response0
    (try_except
       (db <- call ImportDb ;;
        match db with
        | Some db =>
            setitem "database" (VStr "✅ Available") ;;
            setitem "database_url" (VStr "✅ Configured") ;;
            has_name <- call (HasattrName db) ;;
            name <- (if has_name : bool then call (GetName db)
                     else ret (VStr "✅ Connected")) ;;
            setitem "database_name" name ;;
            setitem "connection_status" (VStr "Connected") ;;
            try_except
              (collections <- call (ListCollectionNames db) ;;
               setitem "collections" (VList (firstn 10 collections)) ;;
               setitem "database" (VStr "✅ Connected & Working"))
              (fun e =>
                 setitem "database"
                   (VStr ("⚠️  Connected but Error: " ++ str_take 50 (exn_str e))))
        | None =>
            setitem "database" (VStr "⚠️  Available but not initialized")
        end)
       (fun e =>
          if is_ImportError e then
            setitem "database"
              (VStr "❌ Database module not found (run enable-database first)")
          else
            setitem "database" (VStr ("❌ Error: " ++ str_take 50 (exn_str e)))) ;;
     url <- perform (Getenv "DATABASE_URL") ;;
     setitem "database_url"
       (VStr (if truthy_env url then "✅ Set" else "❌ Not Set")) ;;
     name <- perform (Getenv "DATABASE_NAME") ;;
     setitem "database_name"
       (VStr (if truthy_env name then "✅ Set" else "❌ Not Set")) ;;
     response <- get ;;
     ret (VDict response)).

Definition get_schema : prog (result value) :=
  local tt
    (ret (VDict [ ("menuitem", model_json_schema MenuItem);
                  ("review", model_json_schema Review);
                  ("order", model_json_schema Order) ])).

(** The keyword arguments of the three [MenuItem(...)] calls of
    [get_menu]. *)
Definition menu_defaults_kwargs : list value :=
  [ VDict
      [ ("name", VStr "City Classic Shawarma");
        ("description", VStr "Fire-grilled chicken, garlic sauce, pickles, city herbs.");
        ("price", VFloat (decimal 1195 2));
        ("category", VStr "wraps");
        ("image", VStr "https://images.unsplash.com/photo-1604908554039-955f8a19a34b?q=80&w=1200&auto=format&fit=crop");
        ("media", VStr "https://cdn.coverr.co/videos/coverr-grilling-meat-2869/1080p.mp4");
        ("rating", VFloat (decimal 49 1));
        ("ratings_count", VInt 542) ];
    VDict
      [ ("name", VStr "Ember Beef Skewers");
        ("description", VStr "Charred edges, tender center, pomegranate glaze.");
        ("price", VFloat (decimal 145 1));
        ("category", VStr "skewers");
        ("image", VStr "https://images.unsplash.com/photo-1616712134411-6a2dd1d8ef2e?q=80&w=1200&auto=format&fit=crop");
        ("media", VStr "https://cdn.coverr.co/videos/coverr-fire-grilling-4037/1080p.mp4");
        ("rating", VFloat (decimal 48 1));
        ("ratings_count", VInt 311) ];
    VDict
      [ ("name", VStr "Loaded City Fries");
        ("description", VStr "Garlic drizzle, chili crunch, parsley rain.");
        ("price", VFloat (decimal 875 2));
        ("category", VStr "fries");
        ("image", VStr "https://images.unsplash.com/photo-1546549039-49d3c2d6d3d2?q=80&w=1200&auto=format&fit=crop");
        ("media", VStr "https://cdn.coverr.co/videos/coverr-close-up-of-french-fries-1550/1080p.mp4");
        ("rating", VFloat (decimal 47 1));
        ("ratings_count", VInt 228) ] ].

Definition get_menu : prog (result (list value)) :=
  local tt
    (defaults <- lift (comprehension (init MenuItem) menu_defaults_kwargs) ;;
     try_except
       (db <- call ImportDb ;;
        match db with
        | None => ret defaults
        | Some db =>
            docs <- call (Find db "menuitem" (VDict []) (VDict [("_id", VInt 0)])) ;;
            match docs with
            | [] =>
                call (InsertMany db "menuitem" (map model_dump defaults)) ;;
                ret defaults
            | _ => lift (comprehension (init MenuItem) docs)
            end
        end)
       (fun _ => ret defaults)).

(** The keyword arguments of the three [Review(...)] calls of
    [get_reviews]. *)
Definition reviews_defaults_kwargs : list value :=
  [ VDict [ ("name", VStr "Layla"); ("rating", VInt 5);
            ("quote", VStr "The garlic drizzle is unreal. City vibes in a wrap!");
            ("platform", VStr "Google") ];
    VDict [ ("name", VStr "Marco"); ("rating", VInt 5);
            ("quote", VStr "Beef skewers with that ember glaze… perfection.");
            ("platform", VStr "Yelp") ];
    VDict [ ("name", VStr "Anaya"); ("rating", VInt 4);
            ("quote", VStr "Loaded fries that belong in a music video.");
            ("platform", VStr "Google") ] ].

Definition get_reviews : prog (result (list value)) :=
  local tt
    (defaults <- lift (comprehension (init Review) reviews_defaults_kwargs) ;;
     try_except
       (db <- call ImportDb ;;
        match db with
        | None => ret defaults
        | Some db =>
            docs <- call (Find db "review" (VDict []) (VDict [("_id", VInt 0)])) ;;
            match docs with
            | [] =>
                call (InsertMany db "review" (map model_dump defaults)) ;;
                ret defaults
            | _ => lift (comprehension (init Review) docs)
            end
        end)
       (fun _ => ret defaults)).

Definition OrderResponse : model :=
  Model "OrderResponse"
    [ Field "id" (TOptional TStr) (Some VNone) None None None;
      Field "message" TStr None None None None ].

Definition create_order (order : value) : prog (result value) :=
  local tt
    (try_except
       (call ImportCreateDocument ;;
        order_id <- call (CreateDocument "order" order) ;;
        ret (VDict [ ("id", VStr order_id);
                     ("message", VStr "Order received. We'll start the grill!") ]))
       (fun _ =>
          ret (VDict [ ("id", VNone);
                       ("message",
                        VStr "Order received (demo mode). We'll start the grill!") ]))).

(** *** The route [POST /api/orders]

    What the framework does around [create_order]: the JSON body is
    validated against [Order] (422 when refused), the handler is called
    with the instance, and what it returns is validated against the
    [response_model] and sent with status 200 (500 when the handler
    raises or its result is refused). *)
Record http_response : Type := { status : Z; content : value }.

Definition post_orders (body : value) : prog http_response :=
  match validate (TModel Order) body with
  | None => Ret {| status := 422; content := VStr "Unprocessable Entity" |}
  | Some order =>
      pbind (create_order order) (fun r =>
        match r with
        | Raise _ => Ret {| status := 500; content := VStr "Internal Server Error" |}
        | Ok v =>
            match validate (TModel OrderResponse) v with
            | Some obj => Ret {| status := 200; content := model_dump obj |}
            | None => Ret {| status := 500; content := VStr "Internal Server Error" |}
            end
        end)
  end.

(* ------------------------------------------------------------------ *)
(** ** An in-memory document store *)

(** Modelled from the spec: the [database] module is not part of the
    sources; this store follows the persistence collaborator contract
    ([find(filter, projection)] gives the documents of a collection,
    [insert_many(documents)] adds them, [create_document(collection_name,
    record)] stores a record and gives its identifier).  As in MongoDB
    every stored document gets an [_id], which the projection
    [{"_id": 0}] leaves out. *)
Record store : Type := {
  collections : list (string * list value);
  next_id : N;
  environ : list (string * string)
}.

Fixpoint documents (c : string) (cs : list (string * list value)) : list value :=
  match cs with
  | [] => []
  | (c', docs) :: cs' => if String.eqb c c' then docs else documents c cs'
  end.

Fixpoint add_documents (c : string) (new : list value)
    (cs : list (string * list value)) : list (string * list value) :=
  match cs with
  | [] => [(c, new)]
  | (c', docs) :: cs' =>
      if String.eqb c c' then (c', (docs ++ new)%list) :: cs'
      else (c', docs) :: add_documents c new cs'
  end.

Definition identifier (n : N) : string := NilZero.string_of_uint (N.to_uint n).

(** The documents with identifiers [n], [n+1], ... attached. *)
Fixpoint with_ids (n : N) (docs : list value) : list value :=
  match docs with
  | [] => []
  | VDict d :: docs' =>
      VDict (dict_set "_id" (VStr (identifier n)) d) :: with_ids (N.succ n) docs'
  | v :: docs' => v :: with_ids (N.succ n) docs'
  end.

Definition project (projection : value) (doc : value) : value :=
  match projection, doc with
  | VDict [(k, VInt 0)], VDict d => VDict (dict_remove k d)
  | _, _ => doc
  end.

Definition insert (c : string) (docs : list value) (st : store) : store :=
  {| collections := add_documents c (with_ids (next_id st) docs) (collections st);
     next_id := (next_id st + N.of_nat (List.length docs))%N;
     environ := environ st |}.

Fixpoint lookup_env (name : string) (vars : list (string * string)) : option string :=
  match vars with
  | [] => None
  | (k, v) :: vars' => if String.eqb name k then Some v else lookup_env name vars'
  end.

Definition mem_env : env store :=
  fun X e =>
    match e in event X return store -> X * store with
    | ImportDb => fun st => (Ok (Some (Db 0)), st)
    | ImportCreateDocument => fun st => (Ok tt, st)
    | CreateDocument c data => fun st =>
        (Ok (identifier (next_id st)), insert c [model_dump data] st)
    | Find _ c flt projection => fun st =>
        match flt with
        | VDict [] => (Ok (map (project projection) (documents c (collections st))), st)
        | _ => (Raise (OtherException "NotImplementedError" "filter"), st)
        end
    | InsertMany _ c docs => fun st => (Ok tt, insert c docs st)
    | HasattrName _ => fun st => (Ok true, st)
    | GetName _ => fun st => (Ok (VStr "flame"), st)
    | ListCollectionNames _ => fun st =>
        (Ok (map (fun cd => VStr (fst cd)) (collections st)), st)
    | Getenv name => fun st => (lookup_env name (environ st), st)
    end.

Definition empty_store : store :=
  {| collections := []; next_id := 0; environ := [] |}.

(** An environment without the [database] module: every import raises
    [ImportError], and no variable is set. *)
Definition no_database : env unit :=
  fun X e =>
    match e in event X return unit -> X * unit with
    | ImportDb => fun w => (Raise (ImportError "No module named 'database'"), w)
    | ImportCreateDocument => fun w =>
        (Raise (ImportError "No module named 'database'"), w)
    | CreateDocument _ _ => fun w => (Raise (OtherException "NameError" ""), w)
    | Find _ _ _ _ => fun w => (Raise (OtherException "NameError" ""), w)
    | InsertMany _ _ _ => fun w => (Raise (OtherException "NameError" ""), w)
    | HasattrName _ => fun w => (Raise (OtherException "NameError" ""), w)
    | GetName _ => fun w => (Raise (OtherException "NameError" ""), w)
    | ListCollectionNames _ => fun w => (Raise (OtherException "NameError" ""), w)
    | Getenv _ => fun w => (None, w)
    end.

(* ------------------------------------------------------------------ *)
(** ** Vocabulary of the statements *)

(** An [Optional[str]] argument. *)
Definition opt_str (o : option string) : value :=
  match o with
  | Some s => VStr s
  | None => VNone
  end.

(** [get_menu] and [get_reviews] are one body at two classes (see
    [get_menu_seeded_read] and [get_reviews_seeded_read]). *)
Definition seeded_read (cls : model) (collection : string) (kwargs : list value)
  : prog (result (list value)) :=
  local tt
    (defaults <- lift (comprehension (init cls) kwargs) ;;
     try_except
       (db <- call ImportDb ;;
        match db with
        | None => ret defaults
        | Some db =>
            docs <- call (Find db collection (VDict []) (VDict [("_id", VInt 0)])) ;;
            match docs with
            | [] =>
                call (InsertMany db collection (map model_dump defaults)) ;;
                ret defaults
            | _ => lift (comprehension (init cls) docs)
            end
        end)
       (fun _ => ret defaults)).

(** The instances the two handlers build first. *)
Definition as_instance (cls : string) (kwargs : value) : value :=
  match kwargs with
  | VDict d => VModel cls d
  | _ => kwargs
  end.

Definition menu_defaults : list value :=
  map (as_instance "MenuItem") menu_defaults_kwargs.

Definition reviews_defaults : list value :=
  [ VModel "Review"
      [ ("name", VStr "Layla"); ("avatar", VNone); ("rating", VInt 5);
        ("quote", VStr "The garlic drizzle is unreal. City vibes in a wrap!");
        ("platform", VStr "Google") ];
    VModel "Review"
      [ ("name", VStr "Marco"); ("avatar", VNone); ("rating", VInt 5);
        ("quote", VStr "Beef skewers with that ember glaze… perfection.");
        ("platform", VStr "Yelp") ];
    VModel "Review"
      [ ("name", VStr "Anaya"); ("avatar", VNone); ("rating", VInt 4);
        ("quote", VStr "Loaded fries that belong in a music video.");
        ("platform", VStr "Google") ] ].

(** What the persistence layer answers to a read of a collection, from
    the state [w] of the outside. *)
Definition db_import {W} (E : env W) (w : W) : result (option Database) * W :=
  E _ ImportDb w.

Definition db_read {W} (E : env W) (w : W) (db : Database) (collection : string)
  : result (list value) * W :=
  E _ (Find db collection (VDict []) (VDict [("_id", VInt 0)])) (snd (db_import E w)).

(** The persistence states in which a read-or-seed handler has no stored
    documents to return: the import raises (no [database] module), the
    handle is [None], the read raises, or the collection is empty
    (whatever [insert_many] then does). *)
Definition falls_back {W} (E : env W) (w : W) (collection : string) : Prop :=
  match fst (db_import E w) with
  | Raise _ => True
  | Ok None => True
  | Ok (Some db) =>
      match fst (db_read E w db collection) with
      | Raise _ => True
      | Ok [] => True
      | Ok (_ :: _) => False
      end
  end.

(** The calls to [insert_many]. *)
Definition is_insert_many (c : call_record) : bool :=
  match c with
  | Called e =>
      match e with
      | InsertMany _ _ _ => true
      | _ => false
      end
  end.

(** The two replies of [create_order]. *)
Definition order_confirmed (order_id : string) : value :=
  VDict [ ("id", VStr order_id);
          ("message", VStr "Order received. We'll start the grill!") ].

Definition order_demo_mode : value :=
  VDict [ ("id", VNone);
          ("message", VStr "Order received (demo mode). We'll start the grill!") ].

(** The outcome of the persistence insert of an order: the identifier,
    or the exception raised by the import or by [create_document]. *)
Definition persisted {W} (E : env W) (w : W) (order : value) : result string * W :=
  let a := E _ ImportCreateDocument w in
  match fst a with
  | Raise e => (Raise e, snd a)
  | Ok _ => E _ (CreateDocument "order" order) (snd a)
  end.

(** The reply that goes with an outcome of the insert. *)
Definition order_reply (r : result string) : value :=
  match r with
  | Ok order_id => order_confirmed order_id
  | Raise _ => order_demo_mode
  end.

(** A key of a JSON object sent back. *)
Definition content_get (k : string) (v : value) : option value :=
  match v with
  | VDict d => dict_get k d
  | _ => None
  end.

(** An order item as a client sends it, and the instance validation
    makes of it. *)
Definition item_body (name : string) (price : float) (quantity : Z) : value :=
  VDict [ ("name", VStr name); ("price", VFloat price); ("quantity", VInt quantity) ].

Definition item_instance (name : string) (price : float) (quantity : Z) : value :=
  VModel "OrderItem"
    [ ("item_id", VNone); ("name", VStr name); ("price", VFloat price);
      ("quantity", VInt quantity); ("options", VNone) ].

(** An order of such items, with its three amounts. *)
Definition order_body (items : list (string * float * Z))
    (subtotal tax total : float) : value :=
  VDict [ ("items", VList (map (fun i => item_body (fst (fst i)) (snd (fst i)) (snd i)) items));
          ("subtotal", VFloat subtotal); ("tax", VFloat tax);
          ("total", VFloat total) ].

Definition order_instance (items : list (string * float * Z))
    (subtotal tax total : float) : value :=
  VModel "Order"
    [ ("items", VList (map (fun i => item_instance (fst (fst i)) (snd (fst i)) (snd i)) items));
      ("subtotal", VFloat subtotal); ("tax", VFloat tax); ("total", VFloat total);
      ("customer_name", VNone); ("customer_phone", VNone); ("notes", VNone) ].

(** What the probe of [GET /test] can find. *)
Inductive finding : Type :=
| ModuleNotFound
| ProbeFailed (e : exn)
| NotInitialized
| ListingFailed (e : exn)
| Working (collections : list value).

(** An exception that reaches the outer [except] clauses. *)
Definition outer_failure (e : exn) : finding :=
  if is_ImportError e then ModuleNotFound else ProbeFailed e.

(** The probe, call by call: the import, the look at [db.name], the
    listing of the collections. *)
Definition probe {W} (E : env W) (w : W) : finding * W :=
  let a := E _ ImportDb w in
  match fst a with
  | Raise e => (outer_failure e, snd a)
  | Ok None => (NotInitialized, snd a)
  | Ok (Some db) =>
      let h := E _ (HasattrName db) (snd a) in
      match fst h with
      | Raise e => (outer_failure e, snd h)
      | Ok has_name =>
          let n := if has_name then E _ (GetName db) (snd h)
                   else (Ok (VStr "✅ Connected"), snd h) in
          match fst n with
          | Raise e => (outer_failure e, snd n)
          | Ok _ =>
              let l := E _ (ListCollectionNames db) (snd n) in
              match fst l with
              | Raise e => (ListingFailed e, snd l)
              | Ok collections => (Working collections, snd l)
              end
          end
      end
  end.

(** The line of the payload that renders the finding. *)
Definition database_line (f : finding) : string :=
  match f with
  | ModuleNotFound => "❌ Database module not found (run enable-database first)"
  | ProbeFailed e => "❌ Error: " ++ str_take 50 (exn_str e)
  | NotInitialized => "⚠️  Available but not initialized"
  | ListingFailed e => "⚠️  Connected but Error: " ++ str_take 50 (exn_str e)
  | Working _ => "✅ Connected & Working"
  end.

(** ["Connected"] is assigned once [db.name] has been looked at. *)
Definition connection_line (f : finding) : string :=
  match f with
  | ListingFailed _ | Working _ => "Connected"
  | _ => "Not Connected"
  end.

(** At most ten collection names are shown. *)
Definition collections_line (f : finding) : list value :=
  match f with
  | Working collections => firstn 10 collections
  | _ => []
  end.

(** How an environment variable is reported. *)
Definition set_line (o : option string) : string :=
  if truthy_env o then "✅ Set" else "❌ Not Set".

(** A failure is any finding but [Working]. *)
Definition is_failure (f : finding) : bool :=
  match f with
  | Working _ => false
  | _ => true
  end.

(** The run of a read-or-seed handler, call by call, once its defaults
    are built. *)
Definition seeded_read_run {W} (E : env W) (cls : model) (collection : string)
    (defaults : list value) (w : W) : result (list value) * W * list call_record :=
  let a := E _ ImportDb w in
  match fst a with
  | Raise _ | Ok None => (Ok defaults, snd a, [Called ImportDb])
  | Ok (Some db) =>
      let query := Find db collection (VDict []) (VDict [("_id", VInt 0)]) in
      let seed := InsertMany db collection (map model_dump defaults) in
      let b := E _ query (snd a) in
      match fst b with
      | Raise _ => (Ok defaults, snd b, [Called ImportDb; Called query])
      | Ok [] =>
          (Ok defaults, snd (E _ seed (snd b)),
           [Called ImportDb; Called query; Called seed])
      | Ok docs =>
          (match comprehension (init cls) docs with
           | Ok items => Ok items
           | Raise _ => Ok defaults
           end,
           snd b, [Called ImportDb; Called query])
      end
  end.

(** Parsers that read no number in any string, and a schema generator
    that gives the class name, to run the handlers. *)
Definition no_int : string -> option Z := fun _ => None.
Definition no_float : string -> option float := fun _ => None.

(** A wording of the constructor's exceptions, to run the handlers. *)
Definition plain_text : model -> value -> string :=
  fun m _ => "validation error for " ++ model_name m.
Definition schema_title : model -> value := fun m => VStr (model_name m).

(** A store holding one menu item with a negative price and one review
    with six stars. *)
Definition bad_menu_item : value :=
  VDict [ ("name", VStr "Burnt Wrap"); ("price", VFloat (decimal (-100) 2));
          ("category", VStr "wraps") ].

Definition bad_review : value :=
  VDict [ ("name", VStr "Layla"); ("rating", VInt 6); ("quote", VStr "Six stars!") ].

Definition bad_store : store :=
  {| collections := [ ("menuitem", [bad_menu_item]); ("review", [bad_review]) ];
     next_id := 2;
     environ := [ ("DATABASE_URL", "mongodb://localhost:27017") ] |}.

Definition sample_order : list (string * float * Z) :=
  [ ("City Classic Shawarma", decimal 1195 2, 2) ].

(* ------------------------------------------------------------------ *)
(** ** Vocabulary of the further properties *)

Definition field_ty (f : field) : ty :=
  match f with Field _ t _ _ _ _ => t end.

Definition field_default (f : field) : option value :=
  match f with Field _ _ default _ _ _ => default end.

Definition field_ge (f : field) : option Z :=
  match f with Field _ _ _ ge _ _ => ge end.

Definition field_le (f : field) : option Z :=
  match f with Field _ _ _ _ le _ => le end.

Definition field_names (m : model) : list string :=
  map field_name (model_fields m).

(** The fields declared with [...] or with no default. *)
Definition is_required (f : field) : bool :=
  match field_default f with
  | None => true
  | Some _ => false
  end.

Definition required_names (m : model) : list string :=
  map field_name (filter is_required (model_fields m)).

(** The four classes the handlers use. *)
Definition classes : list model := [MenuItem; Review; OrderItem; Order].

(** [obj.k] on an instance. *)
Definition attr (k : string) (obj : value) : option value :=
  match obj with
  | VModel _ attrs => dict_get k attrs
  | _ => None
  end.

(** Annotations whose values hold no nested object: [str], [int],
    [float], and [Optional] of these. *)
Fixpoint scalar (t : ty) : bool :=
  match t with
  | TStr | TInt | TFloat => true
  | TOptional t' => scalar t'
  | _ => false
  end.

(** A default that its own field would accept unchanged. *)
Definition stable_default (f : field) : Prop :=
  forall dv, field_default f = Some dv ->
    validate (field_ty f) dv = Some dv /\
    check_ge (field_ge f) dv = true /\
    check_le (field_le f) dv = true.

(** What every [MenuItem] instance satisfies. *)
Definition menu_item_invariant (item : value) : Prop :=
  exists attrs name price category rating ratings_count,
    item = VModel "MenuItem" attrs /\
    dict_keys attrs = field_names MenuItem /\
    dict_get "name" attrs = Some (VStr name) /\
    dict_get "price" attrs = Some (VFloat price) /\
    SFleb (float_of_int 0) price = true /\
    dict_get "category" attrs = Some (VStr category) /\
    dict_get "rating" attrs = Some (VFloat rating) /\
    SFleb (float_of_int 0) rating = true /\
    SFleb rating (float_of_int 5) = true /\
    dict_get "ratings_count" attrs = Some (VInt ratings_count) /\
    0 <= ratings_count.

(** What every [Review] instance satisfies. *)
Definition review_invariant (item : value) : Prop :=
  exists attrs name rating quote,
    item = VModel "Review" attrs /\
    dict_keys attrs = field_names Review /\
    dict_get "name" attrs = Some (VStr name) /\
    dict_get "rating" attrs = Some (VInt rating) /\
    1 <= rating <= 5 /\
    dict_get "quote" attrs = Some (VStr quote).

(** The number of characters of a UTF-8 string: [len(s)]. *)
Fixpoint str_len (s : string) : nat :=
  match s with
  | EmptyString => O
  | String c s' => if is_continuation c then str_len s' else S (str_len s')
  end.

(** A string that does not begin in the middle of a character. *)
Definition at_boundary (s : string) : bool :=
  match s with
  | EmptyString => true
  | String c _ => negb (is_continuation c)
  end.

(** [1e19], an integral float beyond the 64-bit range. *)
Definition ten_to_19 : float := float_of_int (10 ^ 19).

(** A store whose menu item has a ratings count, and whose review a
    rating, written as [1e19]. *)
Definition oversized_menu_item : value :=
  VDict [ ("name", VStr "Smoky Falafel Wrap"); ("price", VInt 9);
          ("category", VStr "wraps"); ("ratings_count", VFloat ten_to_19) ].

Definition oversized_review : value :=
  VDict [ ("name", VStr "Marco"); ("rating", VFloat ten_to_19);
          ("quote", VStr "Off the scale.") ].

Definition oversized_store : store :=
  {| collections := [ ("menuitem", [oversized_menu_item]);
                      ("review", [oversized_review]) ];
     next_id := 2;
     environ := [] |}.

(** The words that come before the text of the exception. *)
Definition failure_prefix (f : finding) : string :=
  match f with
  | ListingFailed _ => "⚠️  Connected but Error: "
  | _ => "❌ Error: "
  end.

(** An environment whose database answers the import and the look at
    its name, and fails to list its collections. *)
Definition listing_fails : env unit :=
  fun X e =>
    match e in event X return unit -> X * unit with
    | ImportDb => fun w => (Ok (Some (Db 0)), w)
    | ImportCreateDocument => fun w => (Ok tt, w)
    | CreateDocument _ _ => fun w => (Raise (OtherException "AutoReconnect" "connection closed"), w)
    | Find _ _ _ _ => fun w => (Raise (OtherException "AutoReconnect" "connection closed"), w)
    | InsertMany _ _ _ => fun w => (Raise (OtherException "AutoReconnect" "connection closed"), w)
    | HasattrName _ => fun w => (Ok true, w)
    | GetName _ => fun w => (Ok (VStr "flame"), w)
    | ListCollectionNames _ => fun w =>
        (Raise (OtherException "ServerSelectionTimeoutError"
                  "localhost:27017: [Errno 111] Connection refused, Timeout: 30s, Topology Description: unknown"),
         w)
    | Getenv _ => fun w => (Some "", w)
    end.

(** A store holding one valid menu item, written with an integer price
    and no rating, and one valid review. *)
Definition stored_menu_item : value :=
  VDict [ ("name", VStr "Smoky Falafel Wrap"); ("price", VInt 9);
          ("category", VStr "wraps"); ("_id", VStr "7") ].

Definition stored_review : value :=
  VDict [ ("name", VStr "Marco"); ("rating", VInt 5);
          ("quote", VStr "Beef skewers with that ember glaze… perfection.") ].

Definition stocked_store : store :=
  {| collections := [ ("menuitem", [stored_menu_item]); ("review", [stored_review]) ];
     next_id := 8;
     environ := [ ("DATABASE_URL", "mongodb://localhost:27017"); ("DATABASE_NAME", "") ] |}.

(* ------------------------------------------------------------------ *)
(** ** Validation: general facts *)

Lemma validate_model_dict (name : string) (fs : list field) (d : dict) :
  validate_model (Model name fs) (VDict d)
  = option_map (VModel name) (validate_fields fs d).
Proof.
  simpl. f_equal.
  induction fs as [|f fs IH]; [reflexivity|].
  simpl. now rewrite IH.
Qed.

Lemma init_dict (m : model) (d : dict) :
  init m (VDict d)
  = match validate_fields (model_fields m) d with
    | Some attrs => Ok (VModel (model_name m) attrs)
    | None => Raise (ValidationError (model_name m) (error_text m (VDict d)))
    end.
Proof.
  destruct m as [name fs]. unfold init.
  rewrite validate_model_dict. simpl.
  now destruct (validate_fields fs d).
Qed.

Lemma validate_field_eq (name : string) (t : ty) (default : option value)
    (ge le : option Z) (description : option string) (d : dict) :
  validate_field (Field name t default ge le description) d
  = match dict_get name d with
    | None => default
    | Some v =>
        match validate t v with
        | Some v' => if check_ge ge v' && check_le le v' then Some v' else None
        | None => None
        end
    end.
Proof. reflexivity. Qed.

(** One refused field refuses the model. *)
Lemma validate_fields_refused (fs : list field) (d : dict) (f : field) :
  In f fs -> validate_field f d = None -> validate_fields fs d = None.
Proof.
  induction fs as [|g fs IH]; simpl; [tauto|].
  intros [->|Hin] Hf.
  - now rewrite Hf.
  - rewrite (IH Hin Hf). now destruct (validate_field g d).
Qed.

(** An accepted model has every field accepted. *)
Lemma validate_fields_accepted (fs : list field) (d : dict) (attrs : dict) (f : field) :
  validate_fields fs d = Some attrs -> In f fs ->
  exists x, validate_field f d = Some x.
Proof.
  intros Hfs Hin. destruct (validate_field f d) as [x|] eqn:Hf; [now exists x|].
  now rewrite (validate_fields_refused fs d f Hin Hf) in Hfs.
Qed.

Lemma init_accepted (m : model) (d : dict) (obj : value) (f : field) :
  init m (VDict d) = Ok obj -> In f (model_fields m) ->
  exists x, validate_field f d = Some x.
Proof.
  rewrite init_dict. intros Hm Hin.
  destruct (validate_fields (model_fields m) d) as [attrs|] eqn:Hfs; [|discriminate].
  exact (validate_fields_accepted _ _ _ _ Hfs Hin).
Qed.

(** A float converts only to an integer of the 64-bit range. *)
Lemma int_of_float_range (x : float) (z : Z) :
  int_of_float x = Some z -> - 2 ^ 63 < z < 2 ^ 63.
Proof.
  unfold int_of_float. destruct (integral_value x) as [z'|]; [|discriminate].
  destruct (- 2 ^ 63 <? z') eqn:Hlo; [|discriminate].
  destruct (z' <? 2 ^ 63) eqn:Hhi; [|discriminate].
  cbn [andb]. intros H. inversion H; subst.
  apply Z.ltb_lt in Hlo, Hhi. split; assumption.
Qed.

(** What validates as an [int] is an integer, and as a [float] a
    float. *)
Lemma validate_int_is_int (v x : value) :
  validate TInt v = Some x -> exists r, x = VInt r.
Proof.
  destruct v as [ |b|n|y|s| | | ]; simpl; try discriminate.
  - intros H. inversion H. now eexists.
  - intros H. inversion H. now eexists.
  - destruct (int_of_float y); simpl; [|discriminate].
    intros H. inversion H. now eexists.
  - destruct (str_to_int s); simpl; [|discriminate].
    intros H. inversion H. now eexists.
Qed.

Lemma validate_float_is_float (v x : value) :
  validate TFloat v = Some x -> exists p, x = VFloat p.
Proof.
  destruct v as [ |b|n|y|s| | | ]; simpl; try discriminate.
  - intros H. inversion H. now eexists.
  - destruct (float_of_int_checked n); simpl; [|discriminate].
    intros H. inversion H. now eexists.
  - intros H. inversion H. now eexists.
  - destruct (str_to_float s); simpl; [|discriminate].
    intros H. inversion H. now eexists.
Qed.

Lemma init_refused (m : model) (d : dict) (f : field) :
  In f (model_fields m) -> validate_field f d = None ->
  init m (VDict d)
  = Raise (ValidationError (model_name m) (error_text m (VDict d))).
Proof.
  intros Hin Hf. rewrite init_dict.
  now rewrite (validate_fields_refused _ _ _ Hin Hf).
Qed.

(** A comprehension keeps the length of its list. *)
Lemma comprehension_length {A B} (f : A -> result B) (l : list A) (l' : list B) :
  comprehension f l = Ok l' -> List.length l' = List.length l.
Proof.
  revert l'. induction l as [|x l IH]; simpl; intros l' H.
  - now inversion H.
  - destruct (f x); [|discriminate].
    destruct (comprehension f l); [|discriminate].
    inversion H; subst. simpl. now rewrite (IH _ eq_refl).
Qed.

(** A comprehension raises as soon as one element does. *)
Lemma comprehension_raises {A B} (f : A -> result B) (l : list A) (x : A) (e : exn) :
  In x l -> f x = Raise e -> exists e', comprehension f l = Raise e'.
Proof.
  induction l as [|y l IH]; simpl; [tauto|].
  intros [->|Hin] Hx.
  - rewrite Hx. now exists e.
  - destruct (f y) as [b|e1]; [|now exists e1].
    destruct (IH Hin Hx) as [e' ->]. now exists e'.
Qed.

(** Every element of a comprehension comes from an element of the
    list. *)
Lemma comprehension_Forall {A B} (f : A -> result B) (P : B -> Prop)
    (l : list A) (l' : list B) :
  (forall x y, f x = Ok y -> P y) ->
  comprehension f l = Ok l' -> Forall P l'.
Proof.
  intros HP. revert l'. induction l as [|x l IH]; simpl; intros l' H.
  - inversion H. constructor.
  - destruct (f x) as [y|e] eqn:Hy; [|discriminate].
    destruct (comprehension f l) as [ys|e]; [|discriminate].
    inversion H; subst. constructor; [exact (HP x y Hy)|exact (IH ys eq_refl)].
Qed.

(** A comprehension that returns pairs its list with its result. *)
Lemma comprehension_Forall2 {A B} (f : A -> result B) (l : list A) (l' : list B) :
  comprehension f l = Ok l' -> Forall2 (fun x y => f x = Ok y) l l'.
Proof.
  revert l'. induction l as [|x l IH]; simpl; intros l' H.
  - inversion H. constructor.
  - destruct (f x) as [y|e] eqn:Hy; [|discriminate].
    destruct (comprehension f l) as [ys|e]; [|discriminate].
    inversion H; subst. constructor; [exact Hy|exact (IH ys eq_refl)].
Qed.

(** A comprehension returns when every element does. *)
Lemma comprehension_returns {A B} (f : A -> result B) (l : list A) :
  (forall x, In x l -> exists y, f x = Ok y) ->
  exists l', comprehension f l = Ok l'.
Proof.
  induction l as [|x l IH]; simpl; intros H.
  - now exists [].
  - destruct (H x (or_introl eq_refl)) as [y ->].
    destruct (IH (fun z Hz => H z (or_intror Hz))) as [ys ->].
    now exists (y :: ys).
Qed.

(** One refused element refuses the list. *)
Lemma all_some_refused {A B} (f : A -> option B) (l : list A) (x : A) :
  In x l -> f x = None -> all_some (map f l) = None.
Proof.
  induction l as [|y l IH]; simpl; [intros []|].
  intros [->|Hin] Hx.
  - now rewrite Hx.
  - rewrite (IH Hin Hx). now destruct (f y).
Qed.

(** Comparisons with zero, and with an upper bound. *)
Lemma float_ge_0 (x : float) : float_ge x 0 = SFleb (float_of_int 0) x.
Proof. now destruct x as [s|s| |s m e]; try destruct s. Qed.

Lemma float_le_leb (x : float) (b : Z) : float_le x b = SFleb x (float_of_int b).
Proof. reflexivity. Qed.

Lemma float_lt_0_not_ge (x : float) :
  SFltb x (float_of_int 0) = true -> float_ge x 0 = false.
Proof.
  unfold SFltb, float_ge.
  now destruct (SFcompare x (float_of_int 0)) as [[| |]|].
Qed.

Lemma validate_opt_str (o : option string) :
  validate (TOptional TStr) (opt_str o) = Some (opt_str o).
Proof. now destruct o. Qed.

(** A [Review] whose rating converts to an integer outside [1,5] is
    refused. *)
Lemma Review_rating_out_of_range (d : dict) (v : value) (r : Z) :
  dict_get "rating" d = Some v ->
  validate TInt v = Some (VInt r) ->
  r < 1 \/ 5 < r ->
  init Review (VDict d)
      = Raise (ValidationError "Review" (error_text Review (VDict d))).
Proof.
  intros Hd Hv Hr.
  apply (init_refused Review d
           (Field "rating" TInt None (Some 1) (Some 5) (Some "Stars 1-5"))).
  - simpl. tauto.
  - rewrite validate_field_eq, Hd, Hv. unfold check_ge, check_le.
    destruct Hr.
    + replace (1 <=? r) with false by (symmetry; apply Z.leb_gt; lia).
      reflexivity.
    + replace (r <=? 5) with false by (symmetry; apply Z.leb_gt; lia).
      now rewrite andb_false_r.
Qed.

(** A [MenuItem] whose price converts to a float below zero is
    refused. *)
Lemma MenuItem_negative_price (d : dict) (v : value) (p : float) :
  dict_get "price" d = Some v ->
  validate TFloat v = Some (VFloat p) ->
  SFltb p (float_of_int 0) = true ->
  init MenuItem (VDict d)
      = Raise (ValidationError "MenuItem" (error_text MenuItem (VDict d))).
Proof.
  intros Hd Hv Hp.
  apply (init_refused MenuItem d
           (Field "price" TFloat None (Some 0) None (Some "Price in dollars"))).
  - simpl. tauto.
  - rewrite validate_field_eq, Hd, Hv. unfold check_ge.
    now rewrite (float_lt_0_not_ge _ Hp).
Qed.

(** An accepted [Review] has a rating that converts to an integer in
    [1,5]. *)
Lemma Review_accepted_rating (d : dict) (obj : value) :
  init Review (VDict d) = Ok obj ->
  exists v r,
    dict_get "rating" d = Some v /\ validate TInt v = Some (VInt r) /\ 1 <= r <= 5.
Proof.
  intros Hok.
  destruct (init_accepted Review d obj
              (Field "rating" TInt None (Some 1) (Some 5) (Some "Stars 1-5")) Hok)
    as [x Hx]; [simpl; tauto|].
  rewrite validate_field_eq in Hx.
  destruct (dict_get "rating" d) as [v|]; [|discriminate].
  destruct (validate TInt v) as [v'|] eqn:Hv; [|discriminate].
  destruct (validate_int_is_int v v' Hv) as [r ->].
  unfold check_ge, check_le in Hx.
  destruct (1 <=? r) eqn:Hlo; [|discriminate].
  destruct (r <=? 5) eqn:Hhi; [|discriminate].
  exists v, r. apply Z.leb_le in Hlo, Hhi. auto.
Qed.

(** An accepted [MenuItem] has a price that converts to a float at least
    zero. *)
Lemma MenuItem_accepted_price (d : dict) (obj : value) :
  init MenuItem (VDict d) = Ok obj ->
  exists v p,
    dict_get "price" d = Some v /\ validate TFloat v = Some (VFloat p) /\
    SFleb (float_of_int 0) p = true.
Proof.
  intros Hok.
  destruct (init_accepted MenuItem d obj
              (Field "price" TFloat None (Some 0) None (Some "Price in dollars")) Hok)
    as [x Hx]; [simpl; tauto|].
  rewrite validate_field_eq in Hx.
  destruct (dict_get "price" d) as [v|]; [|discriminate].
  destruct (validate TFloat v) as [v'|] eqn:Hv; [|discriminate].
  destruct (validate_float_is_float v v' Hv) as [p ->].
  unfold check_ge, check_le in Hx. rewrite float_ge_0 in Hx.
  destruct (SFleb (float_of_int 0) p) eqn:Hp; [|discriminate].
  exists v, p. auto.
Qed.

Lemma Review_in_range (name : string) (avatar : option string) (rating : Z)
    (quote : string) (platform : option string) :
  1 <= rating <= 5 ->
  init Review
    (VDict [ ("name", VStr name); ("avatar", opt_str avatar);
             ("rating", VInt rating); ("quote", VStr quote);
             ("platform", opt_str platform) ])
  = Ok (VModel "Review"
          [ ("name", VStr name); ("avatar", opt_str avatar);
            ("rating", VInt rating); ("quote", VStr quote);
            ("platform", opt_str platform) ]).
Proof.
  intros [Hlo Hhi]. rewrite init_dict.
  cbn [model_fields model_name Review validate_fields validate_field dict_get
       String.eqb Ascii.eqb Bool.eqb field_name].
  rewrite !validate_opt_str.
  cbn [validate check_ge check_le andb].
  apply Z.leb_le in Hlo, Hhi. now rewrite Hlo, Hhi.
Qed.

Lemma MenuItem_in_range (name : string) (description : option string)
    (price : float) (category : string) (image media : option string)
    (rating : float) (ratings_count : Z) :
  SFleb (float_of_int 0) price = true ->
  SFleb (float_of_int 0) rating = true ->
  SFleb rating (float_of_int 5) = true ->
  0 <= ratings_count ->
  init MenuItem
    (VDict [ ("name", VStr name); ("description", opt_str description);
             ("price", VFloat price); ("category", VStr category);
             ("image", opt_str image); ("media", opt_str media);
             ("rating", VFloat rating); ("ratings_count", VInt ratings_count) ])
  = Ok (VModel "MenuItem"
          [ ("name", VStr name); ("description", opt_str description);
            ("price", VFloat price); ("category", VStr category);
            ("image", opt_str image); ("media", opt_str media);
            ("rating", VFloat rating); ("ratings_count", VInt ratings_count) ]).
Proof.
  intros Hp Hr0 Hr5 Hc. rewrite init_dict.
  cbn [model_fields model_name MenuItem validate_fields validate_field dict_get
       String.eqb Ascii.eqb Bool.eqb field_name].
  rewrite !validate_opt_str.
  cbn [validate check_ge check_le andb].
  rewrite !float_ge_0, float_le_leb, Hp, Hr0, Hr5.
  apply Z.leb_le in Hc. now rewrite Hc.
Qed.

(* ------------------------------------------------------------------ *)
(** ** The read-or-seed handlers *)

Lemma get_menu_seeded_read :
  get_menu = seeded_read MenuItem "menuitem" menu_defaults_kwargs.
Proof. reflexivity. Qed.

Lemma get_reviews_seeded_read :
  get_reviews = seeded_read Review "review" reviews_defaults_kwargs.
Proof. reflexivity. Qed.

Lemma menu_defaults_built :
  comprehension (init MenuItem) menu_defaults_kwargs = Ok menu_defaults.
Proof. vm_compute. reflexivity. Qed.

Lemma reviews_defaults_built :
  comprehension (init Review) reviews_defaults_kwargs = Ok reviews_defaults.
Proof. vm_compute. reflexivity. Qed.

(** Stored again and read back, the defaults validate to themselves. *)
Lemma menu_defaults_reread :
  comprehension (init MenuItem) (map model_dump menu_defaults) = Ok menu_defaults.
Proof. vm_compute. reflexivity. Qed.

Lemma reviews_defaults_reread :
  comprehension (init Review) (map model_dump reviews_defaults) = Ok reviews_defaults.
Proof. vm_compute. reflexivity. Qed.

Section SeededRead.

Context {W : Type} (E : env W).
Variables (cls : model) (collection : string) (kwargs defaults : list value).
Hypothesis built : comprehension (init cls) kwargs = Ok defaults.

Lemma seeded_read_correct (w : W) :
  run E (seeded_read cls collection kwargs) w
  = seeded_read_run E cls collection defaults w.
Proof.
  unfold seeded_read, seeded_read_run, local, bind, try_except, lift, call, ret.
  rewrite built. simpl.
  destruct (E _ ImportDb w) as [[[db|]|e] w1]; simpl; try reflexivity.
  destruct (E _ (Find db collection (VDict []) (VDict [("_id", VInt 0)])) w1)
    as [[[|doc docs]|e] w2]; simpl; try reflexivity.
  - now destruct (E _ (InsertMany db collection (map model_dump defaults)) w2)
      as [[[]|e] w3].
  - destruct (init cls doc) as [item|e]; simpl; [|reflexivity].
    destruct (comprehension (init cls) docs) as [items|e]; reflexivity.
Qed.

End SeededRead.

#[local] Arguments comprehension : simpl never.

Section SeededReadFacts.

Context {W : Type} (E : env W).
Variables (cls : model) (collection : string) (kwargs defaults : list value).
Hypothesis built : comprehension (init cls) kwargs = Ok defaults.
Hypothesis some_defaults : defaults <> [].

Lemma seeded_read_returns (w : W) :
  exists items,
    outcome (run E (seeded_read cls collection kwargs) w) = Ok items /\ items <> [].
Proof.
  rewrite (seeded_read_correct E cls collection kwargs defaults built).
  unfold seeded_read_run, outcome.
  destruct (fst (E _ ImportDb w)) as [[db|]|e]; simpl; eauto.
  destruct (fst (E _ (Find db collection (VDict []) (VDict [("_id", VInt 0)])) _))
    as [[|doc docs]|e]; simpl; eauto.
  destruct (comprehension (init cls) (doc :: docs)) as [items|e] eqn:Hc; eauto.
  exists items. split; [reflexivity|].
  apply comprehension_length in Hc. destruct items; [discriminate|congruence].
Qed.

Lemma seeded_read_falls_back (w : W) :
  falls_back E w collection ->
  outcome (run E (seeded_read cls collection kwargs) w) = Ok defaults.
Proof.
  rewrite (seeded_read_correct E cls collection kwargs defaults built).
  unfold falls_back, db_read, db_import, seeded_read_run, outcome.
  destruct (fst (E _ ImportDb w)) as [[db|]|e]; simpl; try reflexivity.
  destruct (fst (E _ (Find db collection (VDict []) (VDict [("_id", VInt 0)])) _))
    as [[|doc docs]|e]; simpl; try reflexivity.
  intros [].
Qed.

Lemma seeded_read_invalid_document (w : W) (db : Database) (docs : list value)
    (doc : value) (e : exn) :
  fst (db_import E w) = Ok (Some db) ->
  fst (db_read E w db collection) = Ok docs ->
  In doc docs ->
  init cls doc = Raise e ->
  outcome (run E (seeded_read cls collection kwargs) w) = Ok defaults.
Proof.
  unfold db_read, db_import. intros Hi Hr Hin He.
  rewrite (seeded_read_correct E cls collection kwargs defaults built).
  unfold seeded_read_run, outcome. rewrite Hi. simpl. rewrite Hr.
  destruct docs as [|d0 docs]; [reflexivity|]. simpl fst.
  destruct (comprehension_raises (init cls) (d0 :: docs) doc e Hin He) as [e' ->].
  reflexivity.
Qed.

Lemma seeded_read_valid_documents (w : W) (db : Database) (docs items : list value) :
  fst (db_import E w) = Ok (Some db) ->
  fst (db_read E w db collection) = Ok docs ->
  docs <> [] ->
  comprehension (init cls) docs = Ok items ->
  run E (seeded_read cls collection kwargs) w
  = (Ok items, snd (db_read E w db collection),
     [Called ImportDb;
      Called (Find db collection (VDict []) (VDict [("_id", VInt 0)]))]).
Proof.
  unfold db_read, db_import. intros Hi Hr Hne Hc.
  rewrite (seeded_read_correct E cls collection kwargs defaults built).
  unfold seeded_read_run. rewrite Hi. simpl. rewrite Hr.
  destruct docs as [|d0 docs]; [congruence|]. now rewrite Hc.
Qed.

Lemma seeded_read_empty (w : W) (db : Database) :
  fst (db_import E w) = Ok (Some db) ->
  fst (db_read E w db collection) = Ok [] ->
  run E (seeded_read cls collection kwargs) w
  = (Ok defaults,
     snd (E _ (InsertMany db collection (map model_dump defaults))
            (snd (db_read E w db collection))),
     [Called ImportDb;
      Called (Find db collection (VDict []) (VDict [("_id", VInt 0)]));
      Called (InsertMany db collection (map model_dump defaults))]).
Proof.
  unfold db_read, db_import. intros Hi Hr.
  rewrite (seeded_read_correct E cls collection kwargs defaults built).
  unfold seeded_read_run. rewrite Hi. simpl. now rewrite Hr.
Qed.

(** [insert_many] is called only after a read that gave no document. *)
Lemma seeded_read_inserts_when_empty (w : W) (c : call_record) :
  In c (calls (run E (seeded_read cls collection kwargs) w)) ->
  is_insert_many c = true ->
  exists db,
    fst (db_import E w) = Ok (Some db) /\
    fst (db_read E w db collection) = Ok [].
Proof.
  rewrite (seeded_read_correct E cls collection kwargs defaults built).
  unfold db_read, db_import, seeded_read_run, calls.
  destruct (fst (E _ ImportDb w)) as [[db|]|e]; simpl;
    try (intros [<-|[]]; discriminate).
  destruct (fst (E _ (Find db collection (VDict []) (VDict [("_id", VInt 0)])) _))
    as [[|doc docs]|e] eqn:Hq; simpl;
    try (intros [<-|[<-|[]]]; discriminate).
  intros _ _. exists db. split; [reflexivity|exact Hq].
Qed.

(** Two calls in a row, from an empty collection that keeps what is
    inserted. *)
Lemma seeded_read_twice (w : W) (db db' : Database) :
  comprehension (init cls) (map model_dump defaults) = Ok defaults ->
  fst (db_import E w) = Ok (Some db) ->
  fst (db_read E w db collection) = Ok [] ->
  let first := run E (seeded_read cls collection kwargs) w in
  let second := run E (seeded_read cls collection kwargs) (final first) in
  fst (db_import E (final first)) = Ok (Some db') ->
  fst (db_read E (final first) db' collection) = Ok (map model_dump defaults) ->
  outcome first = Ok defaults /\
  calls first =
    [Called ImportDb;
     Called (Find db collection (VDict []) (VDict [("_id", VInt 0)]));
     Called (InsertMany db collection (map model_dump defaults))] /\
  outcome second = Ok defaults /\
  Forall (fun c => is_insert_many c = false) (calls second).
Proof.
  intros reread Hi Hr first second Hi2 Hr2.
  assert (Hne : map model_dump defaults <> []).
  { destruct defaults; [contradiction|discriminate]. }
  assert (H2 := seeded_read_valid_documents (final first) db'
                  (map model_dump defaults) defaults Hi2 Hr2 Hne reread).
  fold second in H2. rewrite H2.
  subst first. rewrite (seeded_read_empty w db Hi Hr).
  repeat split. repeat constructor.
Qed.

(** Every persistence access is on [collection]. *)
Lemma seeded_read_collection (w : W) :
  Forall (fun c => forall n, collection_of c = Some n -> n = collection)
    (calls (run E (seeded_read cls collection kwargs) w)).
Proof.
  rewrite (seeded_read_correct E cls collection kwargs defaults built).
  unfold seeded_read_run, calls.
  destruct (fst (E _ ImportDb w)) as [[db|]|e]; simpl;
    try (repeat constructor; simpl; congruence).
  destruct (fst (E _ (Find db collection (VDict []) (VDict [("_id", VInt 0)])) _))
    as [[|doc docs]|e]; simpl;
    repeat constructor; simpl; congruence.
Qed.

End SeededReadFacts.

Lemma menu_defaults_three : List.length menu_defaults = 3%nat.
Proof. reflexivity. Qed.

Lemma reviews_defaults_three : List.length reviews_defaults = 3%nat.
Proof. reflexivity. Qed.

Lemma menu_defaults_some : menu_defaults <> [].
Proof. discriminate. Qed.

Lemma reviews_defaults_some : reviews_defaults <> [].
Proof. discriminate. Qed.

(* ------------------------------------------------------------------ *)
(** ** Menu and reviews: fallbacks *)

(** C1. Whatever the persistence layer does (no [database] module, a
    [None] handle, an empty collection, any call raising), [GET /api/menu]
    and [GET /api/reviews] return a non-empty list, and in every fallback
    and empty-collection case that list is the three default records. *)
Theorem menu_and_reviews_never_empty :
  forall (W : Type) (E : env W) (w : W),
    (exists items, outcome (run E get_menu w) = Ok items /\ items <> []) /\
    (exists items, outcome (run E get_reviews w) = Ok items /\ items <> []) /\
    (falls_back E w "menuitem" -> outcome (run E get_menu w) = Ok menu_defaults) /\
    (falls_back E w "review" -> outcome (run E get_reviews w) = Ok reviews_defaults) /\
    List.length menu_defaults = 3%nat /\
    List.length reviews_defaults = 3%nat.
Proof.
  intros W E w. rewrite get_menu_seeded_read, get_reviews_seeded_read.
  split; [|split; [|split; [|split; [|split]]]].
  - exact (seeded_read_returns E _ _ _ _ menu_defaults_built menu_defaults_some w).
  - exact (seeded_read_returns E _ _ _ _ reviews_defaults_built reviews_defaults_some w).
  - exact (seeded_read_falls_back E _ _ _ _ menu_defaults_built w).
  - exact (seeded_read_falls_back E _ _ _ _ reviews_defaults_built w).
  - exact menu_defaults_three.
  - exact reviews_defaults_three.
Qed.

(** C10. When the read gives documents and one of them does not validate
    as a [MenuItem] (a [Review]), the exception is caught and the handler
    returns the three defaults. *)
Theorem invalid_document_gives_defaults :
  forall (W : Type) (E : env W) (w : W) (db : Database) (docs : list value)
         (doc : value) (e : exn),
    fst (db_import E w) = Ok (Some db) ->
    In doc docs ->
    (fst (db_read E w db "menuitem") = Ok docs ->
     init MenuItem doc = Raise e ->
     outcome (run E get_menu w) = Ok menu_defaults) /\
    (fst (db_read E w db "review") = Ok docs ->
     init Review doc = Raise e ->
     outcome (run E get_reviews w) = Ok reviews_defaults).
Proof.
  intros W E w db docs doc e Hi Hin.
  rewrite get_menu_seeded_read, get_reviews_seeded_read. split; intros Hr He.
  - exact (seeded_read_invalid_document E _ _ _ _ menu_defaults_built
             w db docs doc e Hi Hr Hin He).
  - exact (seeded_read_invalid_document E _ _ _ _ reviews_defaults_built
             w db docs doc e Hi Hr Hin He).
Qed.

(* ------------------------------------------------------------------ *)
(** ** Seeding *)

(** C5. From an empty collection, a first [GET /api/menu]
    ([GET /api/reviews]) inserts the three defaults and returns them; a
    second call, reading back what was inserted, returns the same records
    and inserts nothing.  [insert_many] is only ever called after a read
    that gave an empty result. *)
Theorem seeding_happens_once :
  forall (W : Type) (E : env W) (w : W) (db db' : Database),
    fst (db_import E w) = Ok (Some db) ->
    (fst (db_read E w db "menuitem") = Ok [] ->
     let first := run E get_menu w in
     let second := run E get_menu (final first) in
     fst (db_import E (final first)) = Ok (Some db') ->
     fst (db_read E (final first) db' "menuitem") = Ok (map model_dump menu_defaults) ->
     outcome first = Ok menu_defaults /\
     calls first =
       [Called ImportDb;
        Called (Find db "menuitem" (VDict []) (VDict [("_id", VInt 0)]));
        Called (InsertMany db "menuitem" (map model_dump menu_defaults))] /\
     outcome second = Ok menu_defaults /\
     Forall (fun c => is_insert_many c = false) (calls second)) /\
    (fst (db_read E w db "review") = Ok [] ->
     let first := run E get_reviews w in
     let second := run E get_reviews (final first) in
     fst (db_import E (final first)) = Ok (Some db') ->
     fst (db_read E (final first) db' "review") = Ok (map model_dump reviews_defaults) ->
     outcome first = Ok reviews_defaults /\
     calls first =
       [Called ImportDb;
        Called (Find db "review" (VDict []) (VDict [("_id", VInt 0)]));
        Called (InsertMany db "review" (map model_dump reviews_defaults))] /\
     outcome second = Ok reviews_defaults /\
     Forall (fun c => is_insert_many c = false) (calls second)) /\
    (forall c, In c (calls (run E get_menu w)) -> is_insert_many c = true ->
               fst (db_read E w db "menuitem") = Ok []) /\
    (forall c, In c (calls (run E get_reviews w)) -> is_insert_many c = true ->
               fst (db_read E w db "review") = Ok []).
Proof.
  intros W E w db db' Hi.
  rewrite get_menu_seeded_read, get_reviews_seeded_read.
  split; [|split; [|split]].
  - intros Hr.
    exact (seeded_read_twice E _ _ _ _ menu_defaults_built menu_defaults_some
             w db db' menu_defaults_reread Hi Hr).
  - intros Hr.
    exact (seeded_read_twice E _ _ _ _ reviews_defaults_built reviews_defaults_some
             w db db' reviews_defaults_reread Hi Hr).
  - intros c Hin Hc.
    destruct (seeded_read_inserts_when_empty E _ _ _ _ menu_defaults_built
                w c Hin Hc) as [db0 [Hi0 Hr0]].
    rewrite Hi in Hi0. now inversion Hi0; subst.
  - intros c Hin Hc.
    destruct (seeded_read_inserts_when_empty E _ _ _ _ reviews_defaults_built
                w c Hin Hc) as [db0 [Hi0 Hr0]].
    rewrite Hi in Hi0. now inversion Hi0; subst.
Qed.

(* ------------------------------------------------------------------ *)
(** ** Orders *)

Lemma run_pbind {W A B} (E : env W) (p : prog A) (k : A -> prog B) (w : W) :
  run E (pbind p k) w
  = (outcome (run E (k (outcome (run E p w))) (final (run E p w))),
     final (run E (k (outcome (run E p w))) (final (run E p w))),
     (calls (run E p w) ++ calls (run E (k (outcome (run E p w))) (final (run E p w))))%list).
Proof.
  revert w. induction p as [a|X e k' IH]; intros w; simpl.
  - unfold outcome, final, calls. simpl.
    now destruct (run E (k a) w) as [[b w'] t].
  - rewrite IH. reflexivity.
Qed.

Lemma create_order_correct {W} (E : env W) (w : W) (order : value) :
  run E (create_order order) w
  = (Ok (order_reply (fst (persisted E w order))),
     snd (persisted E w order),
     match fst (E _ ImportCreateDocument w) with
     | Raise _ => [Called ImportCreateDocument]
     | Ok _ => [Called ImportCreateDocument; Called (CreateDocument "order" order)]
     end).
Proof.
  unfold create_order, persisted, local, bind, try_except, call, ret. simpl.
  destruct (E _ ImportCreateDocument w) as [[[]|e] w1]; simpl; [|reflexivity].
  destruct (E _ (CreateDocument "order" order) w1) as [[order_id|e] w2];
    reflexivity.
Qed.

Lemma order_reply_validates (r : result string) :
  validate (TModel OrderResponse) (order_reply r) = Some (VModel "OrderResponse"
    match r with
    | Ok order_id =>
        [ ("id", VStr order_id);
          ("message", VStr "Order received. We'll start the grill!") ]
    | Raise _ =>
        [ ("id", VNone);
          ("message", VStr "Order received (demo mode). We'll start the grill!") ]
    end).
Proof. now destruct r. Qed.

Lemma post_orders_accepts {W} (E : env W) (w : W) (body order : value) :
  validate (TModel Order) body = Some order ->
  outcome (run E (post_orders body) w)
  = {| status := 200; content := order_reply (fst (persisted E w order)) |}.
Proof.
  intros Hv. unfold post_orders. rewrite Hv, run_pbind, create_order_correct.
  unfold outcome, final. cbn [fst snd].
  rewrite order_reply_validates.
  now destruct (fst (persisted E w order)).
Qed.

(** C2. For every body that validates as an [Order], [POST /api/orders]
    answers 200 with a message: the generated identifier and the
    confirmation when the insert succeeds, a null identifier and the demo
    mode message when the import or the insert raises.  [create_order]
    itself always returns. *)
Theorem create_order_always_answers :
  forall (W : Type) (E : env W) (w : W) (body order : value),
    validate (TModel Order) body = Some order ->
    let reply := outcome (run E (post_orders body) w) in
    status reply = 200 /\
    (exists message, content_get "message" (content reply) = Some (VStr message)) /\
    (forall order_id, fst (persisted E w order) = Ok order_id ->
       content reply =
         VDict [ ("id", VStr order_id);
                 ("message", VStr "Order received. We'll start the grill!") ]) /\
    (forall e, fst (persisted E w order) = Raise e ->
       content reply =
         VDict [ ("id", VNone);
                 ("message",
                  VStr "Order received (demo mode). We'll start the grill!") ]) /\
    (exists v, outcome (run E (create_order order) w) = Ok v).
Proof.
  intros W E w body order Hv reply. subst reply.
  rewrite (post_orders_accepts E w body order Hv), create_order_correct.
  cbn [status content]. repeat split.
  - destruct (fst (persisted E w order)); simpl; eauto.
  - now intros order_id ->.
  - now intros e ->.
  - unfold outcome. simpl. eauto.
Qed.

Lemma OrderItem_any (name : string) (price : float) (quantity : Z) :
  validate (TModel OrderItem) (item_body name price quantity)
  = Some (item_instance name price quantity).
Proof. reflexivity. Qed.

Lemma OrderItem_default_quantity (name : string) (price : float) :
  validate (TModel OrderItem) (VDict [ ("name", VStr name); ("price", VFloat price) ])
  = Some (item_instance name price 1).
Proof. reflexivity. Qed.

Lemma OrderItems_any (items : list (string * float * Z)) :
  all_some (map (validate (TModel OrderItem))
              (map (fun i => item_body (fst (fst i)) (snd (fst i)) (snd i)) items))
  = Some (map (fun i => item_instance (fst (fst i)) (snd (fst i)) (snd i)) items).
Proof.
  induction items as [|[[name price] quantity] items IH]; [reflexivity|].
  cbn [map fst snd]. rewrite OrderItem_any. cbn [all_some].
  now rewrite IH.
Qed.

Lemma Order_any (items : list (string * float * Z)) (subtotal tax total : float) :
  validate (TModel Order) (order_body items subtotal tax total)
  = Some (order_instance items subtotal tax total).
Proof.
  unfold order_body, order_instance.
  change (validate (TModel Order) ?v) with (validate_model Order v).
  unfold Order at 1. rewrite validate_model_dict.
  cbn [validate_fields]. rewrite !validate_field_eq.
  cbn [dict_get String.eqb Ascii.eqb Bool.eqb field_name].
  change (validate (TList (TModel OrderItem)) (VList ?l))
    with (option_map VList (all_some (map (validate (TModel OrderItem)) l))).
  rewrite OrderItems_any. reflexivity.
Qed.

(** C4. No constraint ties [subtotal], [tax] and [total]: every triple
    of floats validates and is accepted by [POST /api/orders], among them
    a body with all three negative and [total] different from
    [subtotal + tax]. *)
Theorem order_totals_unconstrained :
  (forall (items : list (string * float * Z)) (subtotal tax total : float)
          (W : Type) (E : env W) (w : W),
      validate (TModel Order) (order_body items subtotal tax total)
      = Some (order_instance items subtotal tax total) /\
      status (outcome (run E (post_orders (order_body items subtotal tax total)) w))
      = 200) /\
  (exists subtotal tax total : float,
      SFeqb total (SFadd prec emax subtotal tax) = false /\
      SFltb subtotal (float_of_int 0) = true /\
      SFltb tax (float_of_int 0) = true /\
      SFltb total (float_of_int 0) = true /\
      forall (W : Type) (E : env W) (w : W),
        status (outcome (run E
          (post_orders (order_body [("Ember Beef Skewers", decimal 145 1, 1)]
                                   subtotal tax total)) w)) = 200).
Proof.
  split.
  - intros items subtotal tax total W E w. split; [apply Order_any|].
    now rewrite (post_orders_accepts E w _ _ (Order_any items subtotal tax total)).
  - exists (float_of_int (-10)), (float_of_int (-1)), (float_of_int (-5)).
    repeat split; try (vm_compute; reflexivity).
    intros W E w.
    now rewrite (post_orders_accepts E w _ _ (Order_any _ _ _ _)).
Qed.

(** C9. [OrderItem] puts no range on [price] or [quantity]: any float
    and any integer validate ([quantity] is 1 when left out), and an order
    with such items is accepted by [POST /api/orders]; a negative price
    or a quantity of zero or less included.  [MenuItem] refuses a
    negative price. *)
Theorem order_item_unconstrained :
  (forall (name : string) (price : float) (quantity : Z),
      validate (TModel OrderItem) (item_body name price quantity)
      = Some (item_instance name price quantity)) /\
  (forall (name : string) (price : float),
      validate (TModel OrderItem)
        (VDict [ ("name", VStr name); ("price", VFloat price) ])
      = Some (item_instance name price 1)) /\
  (forall (items : list (string * float * Z)) (subtotal tax total : float)
          (W : Type) (E : env W) (w : W),
      status (outcome (run E (post_orders (order_body items subtotal tax total)) w))
      = 200) /\
  (exists (price : float) (zero negative : Z),
      SFltb price (float_of_int 0) = true /\ zero = 0 /\ negative < 0 /\
      forall (W : Type) (E : env W) (w : W),
        status (outcome (run E
          (post_orders (order_body [ ("Loaded City Fries", price, zero);
                                     ("Ember Beef Skewers", price, negative) ]
                                   (float_of_int 0) (float_of_int 0) (float_of_int 0)))
          w)) = 200) /\
  (forall (d : dict) (v : value) (p : float),
      dict_get "price" d = Some v ->
      validate TFloat v = Some (VFloat p) ->
      SFltb p (float_of_int 0) = true ->
      init MenuItem (VDict d)
      = Raise (ValidationError "MenuItem" (error_text MenuItem (VDict d)))).
Proof.
  split; [exact OrderItem_any|].
  split; [exact OrderItem_default_quantity|].
  split; [|split].
  - intros items subtotal tax total W E w.
    now rewrite (post_orders_accepts E w _ _ (Order_any items subtotal tax total)).
  - exists (float_of_int (-3)), 0, (-2).
    repeat split; try reflexivity.
    intros W E w.
    now rewrite (post_orders_accepts E w _ _ (Order_any _ _ _ _)).
  - exact MenuItem_negative_price.
Qed.

(* ------------------------------------------------------------------ *)
(** ** Field constraints *)

(** C3. A [Review] whose rating is an integer outside [1,5] (6, say) is
    refused, and so is a [MenuItem] whose price is below zero; a [Review]
    with a rating in [1,5], and a [MenuItem] with a price at least 0, a
    rating in [0,5] and a ratings count at least 0, validate.  Nothing
    else gets through: an accepted [Review] has a rating in [1,5] and an
    accepted [MenuItem] a price at least 0. *)
Theorem field_constraints_enforced :
  (forall (d : dict) (v : value) (r : Z),
      dict_get "rating" d = Some v ->
      validate TInt v = Some (VInt r) ->
      r < 1 \/ 5 < r ->
      init Review (VDict d)
      = Raise (ValidationError "Review" (error_text Review (VDict d)))) /\
  (forall (d : dict) (v : value) (p : float),
      dict_get "price" d = Some v ->
      validate TFloat v = Some (VFloat p) ->
      SFltb p (float_of_int 0) = true ->
      init MenuItem (VDict d)
      = Raise (ValidationError "MenuItem" (error_text MenuItem (VDict d)))) /\
  (forall (name : string) (avatar : option string) (rating : Z) (quote : string)
          (platform : option string),
      1 <= rating <= 5 ->
      init Review
        (VDict [ ("name", VStr name); ("avatar", opt_str avatar);
                 ("rating", VInt rating); ("quote", VStr quote);
                 ("platform", opt_str platform) ])
      = Ok (VModel "Review"
              [ ("name", VStr name); ("avatar", opt_str avatar);
                ("rating", VInt rating); ("quote", VStr quote);
                ("platform", opt_str platform) ])) /\
  (forall (name : string) (description : option string) (price : float)
          (category : string) (image media : option string) (rating : float)
          (ratings_count : Z),
      SFleb (float_of_int 0) price = true ->
      SFleb (float_of_int 0) rating = true ->
      SFleb rating (float_of_int 5) = true ->
      0 <= ratings_count ->
      init MenuItem
        (VDict [ ("name", VStr name); ("description", opt_str description);
                 ("price", VFloat price); ("category", VStr category);
                 ("image", opt_str image); ("media", opt_str media);
                 ("rating", VFloat rating); ("ratings_count", VInt ratings_count) ])
      = Ok (VModel "MenuItem"
              [ ("name", VStr name); ("description", opt_str description);
                ("price", VFloat price); ("category", VStr category);
                ("image", opt_str image); ("media", opt_str media);
                ("rating", VFloat rating); ("ratings_count", VInt ratings_count) ])) /\
  (forall (d : dict) (obj : value),
      init Review (VDict d) = Ok obj ->
      exists v r,
        dict_get "rating" d = Some v /\ validate TInt v = Some (VInt r) /\
        1 <= r <= 5) /\
  (forall (d : dict) (obj : value),
      init MenuItem (VDict d) = Ok obj ->
      exists v p,
        dict_get "price" d = Some v /\ validate TFloat v = Some (VFloat p) /\
        SFleb (float_of_int 0) p = true).
Proof.
  split; [exact Review_rating_out_of_range|].
  split; [exact MenuItem_negative_price|].
  split; [exact Review_in_range|].
  split; [exact MenuItem_in_range|].
  split; [exact Review_accepted_rating|exact MenuItem_accepted_price].
Qed.

(* ------------------------------------------------------------------ *)
(** ** Collection names *)

Lemma create_order_collection {W} (E : env W) (w : W) (order : value) :
  Forall (fun c => forall n, collection_of c = Some n -> n = "order")
    (calls (run E (create_order order) w)).
Proof.
  rewrite create_order_correct. unfold calls. cbn [snd].
  destruct (fst (E _ ImportCreateDocument w));
    repeat constructor; simpl; congruence.
Qed.

(** C8. Every persistence access names its collection after the class,
    in lower case: [GET /api/menu] reads and seeds ["menuitem"],
    [GET /api/reviews] reads and seeds ["review"], and [POST /api/orders]
    calls [create_document] with ["order"]. *)
Theorem collections_named_after_classes :
  forall (W : Type) (E : env W) (w : W) (order : value),
    (collection_name MenuItem = "menuitem" /\
     collection_name Review = "review" /\
     collection_name Order = "order") /\
    Forall (fun c => forall n, collection_of c = Some n -> n = collection_name MenuItem)
      (calls (run E get_menu w)) /\
    Forall (fun c => forall n, collection_of c = Some n -> n = collection_name Review)
      (calls (run E get_reviews w)) /\
    Forall (fun c => forall n, collection_of c = Some n -> n = collection_name Order)
      (calls (run E (create_order order) w)) /\
    (forall db,
        fst (db_import E w) = Ok (Some db) ->
        fst (db_read E w db "menuitem") = Ok [] ->
        calls (run E get_menu w) =
          [Called ImportDb;
           Called (Find db "menuitem" (VDict []) (VDict [("_id", VInt 0)]));
           Called (InsertMany db "menuitem" (map model_dump menu_defaults))]) /\
    (forall db,
        fst (db_import E w) = Ok (Some db) ->
        fst (db_read E w db "review") = Ok [] ->
        calls (run E get_reviews w) =
          [Called ImportDb;
           Called (Find db "review" (VDict []) (VDict [("_id", VInt 0)]));
           Called (InsertMany db "review" (map model_dump reviews_defaults))]) /\
    (fst (E _ ImportCreateDocument w) = Ok tt ->
     calls (run E (create_order order) w) =
       [Called ImportCreateDocument; Called (CreateDocument "order" order)]).
Proof.
  intros W E w order.
  split; [repeat split|].
  split; [|split; [|split; [|split; [|split]]]].
  - rewrite get_menu_seeded_read.
    exact (seeded_read_collection E _ _ _ _ menu_defaults_built w).
  - rewrite get_reviews_seeded_read.
    exact (seeded_read_collection E _ _ _ _ reviews_defaults_built w).
  - exact (create_order_collection E w order).
  - intros db Hi Hr. rewrite get_menu_seeded_read.
    now rewrite (seeded_read_empty E _ _ _ _ menu_defaults_built w db Hi Hr).
  - intros db Hi Hr. rewrite get_reviews_seeded_read.
    now rewrite (seeded_read_empty E _ _ _ _ reviews_defaults_built w db Hi Hr).
  - intros Hi. rewrite create_order_correct. unfold calls. cbn [snd].
    now rewrite Hi.
Qed.

(* ------------------------------------------------------------------ *)
(** ** The schema document *)

(** C7. [GET /schema] returns a document with exactly three entries,
    the schemas of [MenuItem], [Review] and [Order]; there is no entry
    for [User], [Product] or [OrderItem]. *)
Theorem schema_has_three_shapes :
  forall (W : Type) (E : env W) (w : W),
  exists document,
    run E get_schema w = (Ok (VDict document), w, []) /\
    document = [ ("menuitem", model_json_schema MenuItem);
                 ("review", model_json_schema Review);
                 ("order", model_json_schema Order) ] /\
    dict_keys document = [ "menuitem"; "review"; "order" ] /\
    (forall k, In k (dict_keys document)
               <-> k = collection_name MenuItem \/ k = collection_name Review
                   \/ k = collection_name Order) /\
    (forall k, In k [ "user"; "User"; "product"; "Product"; "orderitem"; "OrderItem" ] ->
               dict_get k document = None).
Proof.
  intros W E w. eexists. split; [reflexivity|].
  split; [reflexivity|]. split; [reflexivity|]. split.
  - intros k.
    change (collection_name MenuItem) with "menuitem".
    change (collection_name Review) with "review".
    change (collection_name Order) with "order".
    simpl. split.
    + intros [<-|[<-|[<-|[]]]]; [left|right; left|right; right]; reflexivity.
    + intros [->|[->| ->]]; [left|right; left|right; right; left]; reflexivity.
  - intros k Hk. simpl in Hk.
    repeat (destruct Hk as [<-|Hk]; [reflexivity|]). contradiction.
Qed.

(* ------------------------------------------------------------------ *)
(** ** The diagnostic probe *)

(** Case analysis on the next answer of the environment, and on what the
    handler then branches on. *)
Ltac answer E :=
  match goal with
  | H : E ?X ?e ?s = _ |- context [E ?X ?e ?s] =>
      rewrite H; cbn [run pbind fst snd]
  | |- context [E ?X ?e ?s] =>
      is_var s;
      let x := fresh "x" in
      let w' := fresh "w" in
      destruct (E X e s) as [x w'] eqn:?; cbn [run pbind fst snd]
  end.

Ltac case_scrutinee :=
  match goal with
  | |- context [match ?x with _ => _ end] => is_var x; destruct x
  | |- context [is_ImportError ?e] => is_var e; destruct (is_ImportError e)
  end.

(** C6. [GET /test] never raises: whatever the import, the handle, the
    attribute access and the listing do, and whatever [DATABASE_URL] and
    [DATABASE_NAME] hold, the handler returns the diagnostic payload, in
    which the finding (every failure included) is rendered as a string. *)
Theorem test_database_never_raises :
  forall (W : Type) (E : env W) (w : W),
    let found := probe E w in
    let url := E _ (Getenv "DATABASE_URL") (snd found) in
    let name := E _ (Getenv "DATABASE_NAME") (snd url) in
    outcome (run E test_database w)
    = Ok (VDict
            [ ("backend", VStr "✅ Running");
              ("database", VStr (database_line (fst found)));
              ("database_url", VStr (set_line (fst url)));
              ("database_name", VStr (set_line (fst name)));
              ("connection_status", VStr (connection_line (fst found)));
              ("collections", VList (collections_line (fst found))) ]) /\
    final (run E test_database w) = snd name /\
    (is_failure (fst found) = true ->
       database_line (fst found) <> "✅ Connected & Working").
Proof.
  intros W E w found url name. subst name url found.
  split; [|split].
  3: { destruct (fst (probe E w)); simpl; discriminate. }
  all: unfold test_database, probe, local, bind, try_except, call, perform,
         ret, get, setitem, outcome, final, outer_failure.
  all: cbn [run pbind fst snd].
  all: repeat first [answer E | case_scrutinee; cbn [run pbind fst snd]].
  all: reflexivity.
Qed.

(* ------------------------------------------------------------------ *)
(** ** Further properties: validation *)

Lemma validate_field_cases (f : field) (d : dict) (x : value) :
  validate_field f d = Some x ->
  (dict_get (field_name f) d = None /\ field_default f = Some x) \/
  (exists v, dict_get (field_name f) d = Some v /\
             validate (field_ty f) v = Some x /\
             check_ge (field_ge f) x = true /\
             check_le (field_le f) x = true).
Proof.
  destruct f as [name t default ge le description].
  rewrite validate_field_eq. cbn [field_name field_default field_ty field_ge field_le].
  destruct (dict_get name d) as [v|]; [|intros ->; left; split; reflexivity].
  destruct (validate t v) as [v'|] eqn:Hv; [|discriminate].
  destruct (check_ge ge v') eqn:Hge; [|discriminate].
  destruct (check_le le v') eqn:Hle; [|discriminate].
  cbn [andb]. intros H. inversion H; subst. right. exists v.
  repeat split; try assumption; reflexivity.
Qed.

Lemma validate_fields_keys (fs : list field) (d attrs : dict) :
  validate_fields fs d = Some attrs -> dict_keys attrs = map field_name fs.
Proof.
  revert attrs. induction fs as [|f fs IH]; intros attrs; simpl.
  - intros H. now inversion H.
  - destruct (validate_field f d) as [x|]; [|discriminate].
    destruct (validate_fields fs d) as [rest|]; [|discriminate].
    intros H. inversion H; subst. simpl. now rewrite (IH rest eq_refl).
Qed.

(** With distinct field names, the instance holds each field's value
    under its name. *)
Lemma validate_fields_get (fs : list field) (d attrs : dict) (f : field) (x : value) :
  validate_fields fs d = Some attrs ->
  NoDup (map field_name fs) ->
  In f fs ->
  validate_field f d = Some x ->
  dict_get (field_name f) attrs = Some x.
Proof.
  revert attrs. induction fs as [|g fs IH]; intros attrs Hfs Hnd Hin Hf; [destruct Hin|].
  simpl in Hfs.
  destruct (validate_field g d) as [y|] eqn:Hg; [|discriminate].
  destruct (validate_fields fs d) as [rest|] eqn:Hrest; [|discriminate].
  inversion Hfs; subst. inversion Hnd as [|n ns Hnotin Hnd']; subst.
  destruct Hin as [->|Hin].
  - simpl. rewrite String.eqb_refl. congruence.
  - simpl. destruct (String.eqb (field_name f) (field_name g)) eqn:He.
    + apply String.eqb_eq in He. exfalso. apply Hnotin. rewrite <- He.
      now apply in_map.
    + exact (IH rest eq_refl Hnd' Hin Hf).
Qed.

Lemma init_ok_inv (m : model) (doc obj : value) :
  init m doc = Ok obj ->
  exists d attrs,
    doc = VDict d /\
    validate_fields (model_fields m) d = Some attrs /\
    obj = VModel (model_name m) attrs.
Proof.
  destruct doc as [ | | | | | |d| ]; try discriminate.
  rewrite init_dict.
  destruct (validate_fields (model_fields m) d) as [attrs|] eqn:Hfs; [|discriminate].
  intros H. inversion H. exists d, attrs. repeat split. exact Hfs.
Qed.

Lemma classes_distinct_names (m : model) :
  In m classes -> NoDup (field_names m).
Proof.
  intros Hm. simpl in Hm.
  repeat (destruct Hm as [<-|Hm];
          [repeat (constructor;
                   [simpl; intros H;
                    repeat (destruct H as [H|H]; [discriminate|]); exact H|]);
           constructor|]).
  destruct Hm.
Qed.

(** X4. The fields declared required are [name], [price], [category] for
    [MenuItem]; [name], [rating], [quote] for [Review]; [name], [price]
    for [OrderItem]; [items], [subtotal], [tax], [total] for [Order].  A
    document that lacks one of them is refused. *)
Theorem required_fields_enforced :
  required_names MenuItem = ["name"; "price"; "category"] /\
  required_names Review = ["name"; "rating"; "quote"] /\
  required_names OrderItem = ["name"; "price"] /\
  required_names Order = ["items"; "subtotal"; "tax"; "total"] /\
  (forall (m : model) (k : string) (d : dict),
      In k (required_names m) ->
      dict_get k d = None ->
      init m (VDict d)
  = Raise (ValidationError (model_name m) (error_text m (VDict d))) /\
      validate (TModel m) (VDict d) = None).
Proof.
  repeat (split; [reflexivity|]).
  intros m k d Hk Hd. unfold required_names in Hk.
  apply in_map_iff in Hk as [f [<- Hf]].
  apply filter_In in Hf as [Hin Hreq].
  assert (Hnone : validate_field f d = None).
  { destruct f as [name t default ge le description].
    rewrite validate_field_eq. cbn [field_name] in Hd. rewrite Hd.
    unfold is_required in Hreq. cbn [field_default] in Hreq.
    now destruct default. }
  split; [exact (init_refused m d f Hin Hnone)|].
  destruct m as [name fs]. change (validate (TModel (Model name fs)) (VDict d))
    with (validate_model (Model name fs) (VDict d)).
  rewrite validate_model_dict.
  now rewrite (validate_fields_refused fs d f Hin Hnone).
Qed.

(** X5. A field left out of a document takes its declared default in the
    instance: 4.8 for the rating of a [MenuItem], 0 for its ratings
    count, 1 for the quantity of an [OrderItem], [None] for every
    optional text. *)
Theorem missing_fields_take_defaults :
  forall (m : model) (f : field) (dv : value) (d : dict) (obj : value),
    In m classes ->
    In f (model_fields m) ->
    field_default f = Some dv ->
    dict_get (field_name f) d = None ->
    init m (VDict d) = Ok obj ->
    attr (field_name f) obj = Some dv.
Proof.
  intros m f dv d obj Hm Hin Hdv Hd Hok.
  destruct (init_ok_inv m _ obj Hok) as [d' [attrs [Hd' [Hfs ->]]]].
  inversion Hd'; subst d'. cbn [attr].
  apply (validate_fields_get (model_fields m) d attrs f dv Hfs).
  - exact (classes_distinct_names m Hm).
  - exact Hin.
  - destruct f as [name t default ge le description].
    rewrite validate_field_eq. cbn [field_name] in Hd. rewrite Hd. exact Hdv.
Qed.

Lemma validate_str_is_str (v x : value) :
  validate TStr v = Some x -> exists s, x = VStr s.
Proof.
  destruct v as [ | | | |s| | | ]; simpl; try discriminate.
  intros H. inversion H. now exists s.
Qed.

(** A validated scalar validates to itself and is its own dump. *)
Lemma validate_scalar_idem (t : ty) (v x : value) :
  scalar t = true ->
  validate t v = Some x ->
  validate t x = Some x /\ model_dump x = x.
Proof.
  induction t as [ | | | |t' IH|t' IH|m]; try discriminate; intros Hs H.
  - destruct (validate_str_is_str v x H) as [s ->]. now split.
  - destruct (validate_int_is_int v x H) as [r ->]. now split.
  - destruct (validate_float_is_float v x H) as [p ->]. now split.
  - assert (Hx : x = VNone \/ validate t' v = Some x).
    { destruct v; simpl in H; try (right; exact H). left. congruence. }
    destruct Hx as [->|Hv]; [now split|].
    destruct (IH Hs Hv) as [Hidem Hdump]. split; [|exact Hdump].
    destruct x; try exact Hidem. reflexivity.
Qed.

Lemma validate_field_idem (f : field) (d d' : dict) (x : value) :
  scalar (field_ty f) = true ->
  stable_default f ->
  validate_field f d = Some x ->
  dict_get (field_name f) d' = Some x ->
  validate_field f d' = Some x /\ model_dump x = x.
Proof.
  intros Hs Hst Hf Hd'.
  destruct (validate_field_cases f d x Hf) as [[_ Hdv]|[v [_ [Hv [Hge Hle]]]]].
  - destruct (Hst x Hdv) as [Hv [Hge Hle]].
    destruct (validate_scalar_idem _ x x Hs Hv) as [_ Hdump].
    split; [|exact Hdump].
    destruct f as [name t default ge le description].
    cbn [field_name field_ty field_ge field_le] in *.
    now rewrite validate_field_eq, Hd', Hv, Hge, Hle.
  - destruct (validate_scalar_idem _ v x Hs Hv) as [Hidem Hdump].
    split; [|exact Hdump].
    destruct f as [name t default ge le description].
    cbn [field_name field_ty field_ge field_le] in *.
    now rewrite validate_field_eq, Hd', Hidem, Hge, Hle.
Qed.

Lemma validate_fields_idem (fs : list field) (d d' attrs : dict) :
  (forall f, In f fs -> scalar (field_ty f) = true /\ stable_default f) ->
  (forall f x, In f fs -> validate_field f d = Some x ->
               dict_get (field_name f) d' = Some x) ->
  validate_fields fs d = Some attrs ->
  validate_fields fs d' = Some attrs /\
  map (fun kv => (fst kv, model_dump (snd kv))) attrs = attrs.
Proof.
  revert attrs. induction fs as [|f fs IH]; intros attrs Hfs Hget H; simpl in H.
  - inversion H. now split.
  - destruct (validate_field f d) as [x|] eqn:Hf; [|discriminate].
    destruct (validate_fields fs d) as [rest|] eqn:Hrest; [|discriminate].
    inversion H; subst.
    destruct (Hfs f (or_introl eq_refl)) as [Hs Hst].
    destruct (validate_field_idem f d d' x Hs Hst Hf
                (Hget f x (or_introl eq_refl) Hf)) as [Hf' Hdump].
    destruct (IH rest (fun g Hg => Hfs g (or_intror Hg))
                (fun g y Hg => Hget g y (or_intror Hg)) eq_refl) as [Hrest' Hmap].
    simpl. rewrite Hf', Hrest', Hdump, Hmap. now split.
Qed.

(** A class of scalar fields with distinct names and stable defaults:
    dumping an instance and validating the dump gives the instance
    back. *)
Lemma init_round_trip (m : model) (d : dict) (obj : value) :
  (forall f, In f (model_fields m) -> scalar (field_ty f) = true /\ stable_default f) ->
  NoDup (field_names m) ->
  init m (VDict d) = Ok obj ->
  init m (model_dump obj) = Ok obj.
Proof.
  intros Hfs Hnd Hok.
  destruct (init_ok_inv m _ obj Hok) as [d0 [attrs [Hd0 [Hattrs ->]]]].
  inversion Hd0; subst d0.
  destruct (validate_fields_idem (model_fields m) d attrs attrs Hfs
              (fun f x Hin Hf => validate_fields_get _ d attrs f x Hattrs Hnd Hin Hf)
              Hattrs) as [Hagain Hmap].
  cbn [model_dump]. rewrite Hmap, init_dict. now rewrite Hagain.
Qed.

Lemma MenuItem_scalar_stable (f : field) :
  In f (model_fields MenuItem) -> scalar (field_ty f) = true /\ stable_default f.
Proof.
  intros Hin. simpl in Hin.
  repeat (destruct Hin as [<-|Hin];
          [split; [reflexivity|];
           intros dv Hdv; cbn [field_default] in Hdv;
           try discriminate; inversion Hdv; subst;
           repeat split; vm_compute; reflexivity|]).
  destruct Hin.
Qed.

Lemma Review_scalar_stable (f : field) :
  In f (model_fields Review) -> scalar (field_ty f) = true /\ stable_default f.
Proof.
  intros Hin. simpl in Hin.
  repeat (destruct Hin as [<-|Hin];
          [split; [reflexivity|];
           intros dv Hdv; cbn [field_default] in Hdv;
           try discriminate; inversion Hdv; subst;
           repeat split; vm_compute; reflexivity|]).
  destruct Hin.
Qed.

(** X1. What [model_dump] makes of a [MenuItem] or a [Review] validates
    back to the same instance: an item written to the store by the
    seeding is read back unchanged, and so is every item the store
    returned before. *)
Theorem dumped_item_reads_back :
  forall (d : dict) (item : value),
    (init MenuItem (VDict d) = Ok item -> init MenuItem (model_dump item) = Ok item) /\
    (init Review (VDict d) = Ok item -> init Review (model_dump item) = Ok item).
Proof.
  intros d item. split.
  - apply init_round_trip; [exact MenuItem_scalar_stable|].
    apply classes_distinct_names. simpl. auto.
  - apply init_round_trip; [exact Review_scalar_stable|].
    apply classes_distinct_names. simpl. auto.
Qed.

(* ------------------------------------------------------------------ *)
(** ** Further properties: what the menu and the reviews contain *)

(** The value of a field of an accepted document, found in the
    instance. *)
Lemma init_field (m : model) (doc obj : value) (f : field) :
  NoDup (field_names m) ->
  In f (model_fields m) ->
  init m doc = Ok obj ->
  exists attrs x,
    obj = VModel (model_name m) attrs /\
    dict_keys attrs = field_names m /\
    dict_get (field_name f) attrs = Some x /\
    (field_default f = Some x \/
     exists v, validate (field_ty f) v = Some x /\
               check_ge (field_ge f) x = true /\ check_le (field_le f) x = true).
Proof.
  intros Hnd Hin Hok.
  destruct (init_ok_inv m doc obj Hok) as [d [attrs [-> [Hattrs ->]]]].
  destruct (validate_fields_accepted _ d attrs f Hattrs Hin) as [x Hx].
  exists attrs, x. split; [reflexivity|].
  split; [exact (validate_fields_keys _ d attrs Hattrs)|].
  split; [exact (validate_fields_get _ d attrs f x Hattrs Hnd Hin Hx)|].
  destruct (validate_field_cases f d x Hx) as [[_ Hdv]|[v [_ H]]];
    [left; exact Hdv|right; now exists v].
Qed.

Lemma MenuItem_invariant (doc item : value) :
  init MenuItem doc = Ok item -> menu_item_invariant item.
Proof.
  intros Hok.
  assert (Hnd : NoDup (field_names MenuItem))
    by (apply classes_distinct_names; simpl; auto).
  destruct (init_field MenuItem doc item
              (Field "name" TStr None None None (Some "Dish name")) Hnd)
    as [attrs [name [Hobj [Hkeys [Hname Hn]]]]]; [simpl; auto|exact Hok|].
  destruct (init_field MenuItem doc item
              (Field "price" TFloat None (Some 0) None (Some "Price in dollars")) Hnd)
    as [attrs1 [price [Hobj1 [_ [Hprice Hp]]]]]; [simpl; auto|exact Hok|].
  destruct (init_field MenuItem doc item
              (Field "category" TStr None None None
                 (Some "Category, e.g., wraps, skewers, fries")) Hnd)
    as [attrs2 [category [Hobj2 [_ [Hcategory Hc]]]]]; [simpl; auto|exact Hok|].
  destruct (init_field MenuItem doc item
              (Field "rating" TFloat (Some (VFloat (decimal 48 1))) (Some 0) (Some 5)
                 (Some "Average rating")) Hnd)
    as [attrs3 [rating [Hobj3 [_ [Hrating Hr]]]]]; [simpl; auto 10|exact Hok|].
  destruct (init_field MenuItem doc item
              (Field "ratings_count" TInt (Some (VInt 0)) (Some 0) None
                 (Some "Number of ratings")) Hnd)
    as [attrs4 [count [Hobj4 [_ [Hcount Hk]]]]]; [simpl; auto 10|exact Hok|].
  subst item. inversion Hobj1; inversion Hobj2; inversion Hobj3; inversion Hobj4.
  subst attrs1 attrs2 attrs3 attrs4.
  cbn [field_name field_default field_ty field_ge field_le] in *.
  destruct Hn as [Hn|[v [Hv _]]]; [discriminate|].
  destruct (validate_str_is_str v name Hv) as [name' ->].
  destruct Hc as [Hc|[v' [Hv' _]]]; [discriminate|].
  destruct (validate_str_is_str v' category Hv') as [category' ->].
  destruct Hp as [Hp|[vp [Hvp [Hpge _]]]]; [discriminate|].
  destruct (validate_float_is_float vp price Hvp) as [price' ->].
  assert (Hrating' : exists r, rating = VFloat r /\
            SFleb (float_of_int 0) r = true /\ SFleb r (float_of_int 5) = true).
  { destruct Hr as [Hr|[vr [Hvr [Hrge Hrle]]]].
    - inversion Hr; subst. eexists. split; [reflexivity|].
      split; vm_compute; reflexivity.
    - destruct (validate_float_is_float vr rating Hvr) as [r ->].
      exists r. cbn [check_ge check_le] in Hrge, Hrle.
      rewrite float_ge_0 in Hrge. rewrite float_le_leb in Hrle. auto. }
  destruct Hrating' as [r [-> [Hr0 Hr5]]].
  assert (Hcount' : exists n, count = VInt n /\ 0 <= n).
  { destruct Hk as [Hk|[vk [Hvk [Hkge _]]]].
    - inversion Hk; subst. exists 0. split; [reflexivity|lia].
    - destruct (validate_int_is_int vk count Hvk) as [n ->].
      exists n. cbn [check_ge] in Hkge. apply Z.leb_le in Hkge. auto. }
  destruct Hcount' as [n [-> Hn0]].
  cbn [check_ge] in Hpge. rewrite float_ge_0 in Hpge.
  exists attrs, name', price', category', r, n.
  repeat split; assumption.
Qed.

Lemma Review_invariant (doc item : value) :
  init Review doc = Ok item -> review_invariant item.
Proof.
  intros Hok.
  assert (Hnd : NoDup (field_names Review))
    by (apply classes_distinct_names; simpl; auto).
  destruct (init_field Review doc item
              (Field "name" TStr None None None (Some "Reviewer name")) Hnd)
    as [attrs [name [Hobj [Hkeys [Hname Hn]]]]]; [simpl; auto|exact Hok|].
  destruct (init_field Review doc item
              (Field "rating" TInt None (Some 1) (Some 5) (Some "Stars 1-5")) Hnd)
    as [attrs1 [rating [Hobj1 [_ [Hrating Hr]]]]]; [simpl; auto|exact Hok|].
  destruct (init_field Review doc item
              (Field "quote" TStr None None None (Some "Short testimonial")) Hnd)
    as [attrs2 [quote [Hobj2 [_ [Hquote Hq]]]]]; [simpl; auto|exact Hok|].
  subst item. inversion Hobj1; inversion Hobj2. subst attrs1 attrs2.
  cbn [field_name field_default field_ty field_ge field_le] in *.
  destruct Hn as [Hn|[v [Hv _]]]; [discriminate|].
  destruct (validate_str_is_str v name Hv) as [name' ->].
  destruct Hq as [Hq|[v' [Hv' _]]]; [discriminate|].
  destruct (validate_str_is_str v' quote Hv') as [quote' ->].
  destruct Hr as [Hr|[vr [Hvr [Hrge Hrle]]]]; [discriminate|].
  destruct (validate_int_is_int vr rating Hvr) as [r ->].
  cbn [check_ge check_le] in Hrge, Hrle. apply Z.leb_le in Hrge, Hrle.
  exists attrs, name', r, quote'. repeat split; assumption.
Qed.

Section SeededReadContents.

Context {W : Type} (E : env W).
Variables (cls : model) (collection : string) (kwargs defaults : list value).
Hypothesis built : comprehension (init cls) kwargs = Ok defaults.
Variable P : value -> Prop.
Hypothesis defaults_P : Forall P defaults.
Hypothesis instances_P : forall doc item, init cls doc = Ok item -> P item.

Lemma seeded_read_Forall (w : W) :
  exists items,
    outcome (run E (seeded_read cls collection kwargs) w) = Ok items /\
    Forall P items.
Proof.
  rewrite (seeded_read_correct E cls collection kwargs defaults built).
  unfold seeded_read_run, outcome.
  destruct (fst (E _ ImportDb w)) as [[db|]|e]; cbn [fst]; eauto.
  destruct (fst (E _ (Find db collection (VDict []) (VDict [("_id", VInt 0)])) _))
    as [[|doc docs]|e]; cbn [fst]; eauto.
  destruct (comprehension (init cls) (doc :: docs)) as [items|e] eqn:Hc; eauto.
  exists items. split; [reflexivity|].
  exact (comprehension_Forall _ P _ items instances_P Hc).
Qed.

End SeededReadContents.

(** X2. Whatever the persistence layer holds or does, every item that
    [GET /api/menu] returns is a [MenuItem] with its eight attributes, a
    price at least 0, a rating in [0,5] and a ratings count at least
    0. *)
Theorem menu_items_within_bounds :
  forall (W : Type) (E : env W) (w : W),
  exists items,
    outcome (run E get_menu w) = Ok items /\
    Forall menu_item_invariant items.
Proof.
  intros W E w. rewrite get_menu_seeded_read.
  apply (seeded_read_Forall E _ _ _ _ menu_defaults_built).
  - exact (comprehension_Forall _ _ _ _ MenuItem_invariant menu_defaults_built).
  - exact MenuItem_invariant.
Qed.

(** X3. Whatever the persistence layer holds or does, every item that
    [GET /api/reviews] returns is a [Review] with a name, a quote and a
    rating in [1,5]. *)
Theorem reviews_within_bounds :
  forall (W : Type) (E : env W) (w : W),
  exists items,
    outcome (run E get_reviews w) = Ok items /\
    Forall review_invariant items.
Proof.
  intros W E w. rewrite get_reviews_seeded_read.
  apply (seeded_read_Forall E _ _ _ _ reviews_defaults_built).
  - exact (comprehension_Forall _ _ _ _ Review_invariant reviews_defaults_built).
  - exact Review_invariant.
Qed.

(** X12. When the read gives documents that all validate, the handler
    returns one instance per document, in the order of the read, after
    two calls only (the import and the read): nothing is written. *)
Theorem stored_documents_returned_in_order :
  forall (W : Type) (E : env W) (w : W) (db : Database) (docs : list value),
    fst (db_import E w) = Ok (Some db) ->
    docs <> [] ->
    (fst (db_read E w db "menuitem") = Ok docs ->
     (forall doc, In doc docs -> exists item, init MenuItem doc = Ok item) ->
     exists items,
       run E get_menu w
       = (Ok items, snd (db_read E w db "menuitem"),
          [Called ImportDb;
           Called (Find db "menuitem" (VDict []) (VDict [("_id", VInt 0)]))]) /\
       Forall2 (fun doc item => init MenuItem doc = Ok item) docs items) /\
    (fst (db_read E w db "review") = Ok docs ->
     (forall doc, In doc docs -> exists item, init Review doc = Ok item) ->
     exists items,
       run E get_reviews w
       = (Ok items, snd (db_read E w db "review"),
          [Called ImportDb;
           Called (Find db "review" (VDict []) (VDict [("_id", VInt 0)]))]) /\
       Forall2 (fun doc item => init Review doc = Ok item) docs items).
Proof.
  intros W E w db docs Hi Hne.
  rewrite get_menu_seeded_read, get_reviews_seeded_read. split; intros Hr Hall.
  - destruct (comprehension_returns (init MenuItem) docs Hall) as [items Hc].
    exists items. split; [|exact (comprehension_Forall2 _ _ _ Hc)].
    exact (seeded_read_valid_documents E _ _ _ _ menu_defaults_built
             w db docs items Hi Hr Hne Hc).
  - destruct (comprehension_returns (init Review) docs Hall) as [items Hc].
    exists items. split; [|exact (comprehension_Forall2 _ _ _ Hc)].
    exact (seeded_read_valid_documents E _ _ _ _ reviews_defaults_built
             w db docs items Hi Hr Hne Hc).
Qed.

Lemma seeded_read_footprint {W} (E : env W) (cls : model) (collection : string)
    (kwargs defaults : list value) (w : W) :
  comprehension (init cls) kwargs = Ok defaults ->
  let made := calls (run E (seeded_read cls collection kwargs) w) in
  made = [Called ImportDb] \/
  exists db,
    fst (db_import E w) = Ok (Some db) /\
    (made = [Called ImportDb;
             Called (Find db collection (VDict []) (VDict [("_id", VInt 0)]))] \/
     made = [Called ImportDb;
             Called (Find db collection (VDict []) (VDict [("_id", VInt 0)]));
             Called (InsertMany db collection (map model_dump defaults))]).
Proof.
  intros built made. subst made.
  rewrite (seeded_read_correct E cls collection kwargs defaults built).
  unfold seeded_read_run, db_import, calls.
  destruct (fst (E _ ImportDb w)) as [[db|]|e]; cbn [snd]; auto.
  right. exists db. split; [reflexivity|].
  destruct (fst (E _ (Find db collection (VDict []) (VDict [("_id", VInt 0)])) _))
    as [[|doc docs]|e]; cbn [snd]; auto.
Qed.

(** X13. A call of [GET /api/menu] or [GET /api/reviews] costs the
    import alone, or the import and one read, or the import, one read and
    one [insert_many] of the dumped defaults, in this order; without a
    handle nothing is read. *)
Theorem read_or_seed_footprint :
  forall (W : Type) (E : env W) (w : W),
    (let made := calls (run E get_menu w) in
     made = [Called ImportDb] \/
     exists db,
       fst (db_import E w) = Ok (Some db) /\
       (made = [Called ImportDb;
                Called (Find db "menuitem" (VDict []) (VDict [("_id", VInt 0)]))] \/
        made = [Called ImportDb;
                Called (Find db "menuitem" (VDict []) (VDict [("_id", VInt 0)]));
                Called (InsertMany db "menuitem" (map model_dump menu_defaults))])) /\
    (let made := calls (run E get_reviews w) in
     made = [Called ImportDb] \/
     exists db,
       fst (db_import E w) = Ok (Some db) /\
       (made = [Called ImportDb;
                Called (Find db "review" (VDict []) (VDict [("_id", VInt 0)]))] \/
        made = [Called ImportDb;
                Called (Find db "review" (VDict []) (VDict [("_id", VInt 0)]));
                Called (InsertMany db "review" (map model_dump reviews_defaults))])).
Proof.
  intros W E w. rewrite get_menu_seeded_read, get_reviews_seeded_read. split.
  - exact (seeded_read_footprint E _ _ _ _ w menu_defaults_built).
  - exact (seeded_read_footprint E _ _ _ _ w reviews_defaults_built).
Qed.

(* ------------------------------------------------------------------ *)
(** ** Further properties: orders *)

Lemma Order_bad_item (d : dict) (items : list value) (item : value) :
  dict_get "items" d = Some (VList items) ->
  In item items ->
  validate (TModel OrderItem) item = None ->
  validate (TModel Order) (VDict d) = None.
Proof.
  intros Hd Hin Hitem.
  change (validate (TModel Order) (VDict d)) with (validate_model Order (VDict d)).
  unfold Order at 1. rewrite validate_model_dict.
  rewrite (validate_fields_refused _ d
             (Field "items" (TList (TModel OrderItem)) None None None None));
    [reflexivity|simpl; auto|].
  rewrite validate_field_eq, Hd.
  change (validate (TList (TModel OrderItem)) (VList items))
    with (option_map VList (all_some (map (validate (TModel OrderItem)) items))).
  now rewrite (all_some_refused _ items item Hin Hitem).
Qed.

(** X6. One item that does not validate as an [OrderItem] refuses the
    whole order: [POST /api/orders] answers 422 and calls nothing, so
    neither the import nor [create_document] runs and the outside is left
    as it was. *)
Theorem bad_item_refuses_order :
  forall (d : dict) (items : list value) (item : value)
         (W : Type) (E : env W) (w : W),
    dict_get "items" d = Some (VList items) ->
    In item items ->
    validate (TModel OrderItem) item = None ->
    validate (TModel Order) (VDict d) = None /\
    status (outcome (run E (post_orders (VDict d)) w)) = 422 /\
    final (run E (post_orders (VDict d)) w) = w /\
    calls (run E (post_orders (VDict d)) w) = [].
Proof.
  intros d items item W E w Hd Hin Hitem.
  assert (Hv := Order_bad_item d items item Hd Hin Hitem).
  split; [exact Hv|]. unfold post_orders. rewrite Hv. repeat split.
Qed.

(** X7. For a body that validates, what [POST /api/orders] hands to
    [create_document] is the validated instance (defaults filled in), on
    collection ["order"], once; when the import raises,
    [create_document] is never called. *)
Theorem order_stored_as_validated :
  forall (W : Type) (E : env W) (w : W) (body order : value),
    validate (TModel Order) body = Some order ->
    (fst (E _ ImportCreateDocument w) = Ok tt ->
     calls (run E (post_orders body) w)
     = [Called ImportCreateDocument; Called (CreateDocument "order" order)] /\
     final (run E (post_orders body) w)
     = snd (E _ (CreateDocument "order" order) (snd (E _ ImportCreateDocument w)))) /\
    (forall e, fst (E _ ImportCreateDocument w) = Raise e ->
     calls (run E (post_orders body) w) = [Called ImportCreateDocument] /\
     final (run E (post_orders body) w) = snd (E _ ImportCreateDocument w)).
Proof.
  intros W E w body order Hv.
  unfold post_orders. rewrite Hv, run_pbind, create_order_correct.
  unfold outcome, final, calls, persisted. cbn [fst snd].
  rewrite order_reply_validates.
  split.
  - intros Hi. rewrite Hi. cbn [fst snd].
    now destruct (fst (E _ (CreateDocument "order" order) _)).
  - intros e Hi. rewrite Hi. now cbn [fst snd].
Qed.

(* ------------------------------------------------------------------ *)
(** ** Further properties: the diagnostic probe *)

Lemma test_database_payload {W} (E : env W) (w : W) :
  outcome (run E test_database w)
  = Ok (VDict
          [ ("backend", VStr "✅ Running");
            ("database", VStr (database_line (fst (probe E w))));
            ("database_url",
             VStr (set_line (fst (E _ (Getenv "DATABASE_URL") (snd (probe E w))))));
            ("database_name",
             VStr (set_line
                     (fst (E _ (Getenv "DATABASE_NAME")
                             (snd (E _ (Getenv "DATABASE_URL") (snd (probe E w))))))));
            ("connection_status", VStr (connection_line (fst (probe E w))));
            ("collections", VList (collections_line (fst (probe E w)))) ]).
Proof.
  unfold test_database, probe, local, bind, try_except, call, perform,
    ret, get, setitem, outcome, final, outer_failure.
  cbn [run pbind fst snd].
  repeat first [answer E | case_scrutinee; cbn [run pbind fst snd]].
  all: reflexivity.
Qed.

(** X8. [GET /test] only looks: it never calls [find], [insert_many] or
    [create_document], makes at most six calls, and whatever the probe
    found it ends by reading [DATABASE_URL] and then [DATABASE_NAME]. *)
Theorem test_database_only_reads :
  forall (W : Type) (E : env W) (w : W),
    let made := calls (run E test_database w) in
    Forall (fun c => collection_of c = None) made /\
    (List.length made <= 6)%nat /\
    skipn (List.length made - 2) made
    = [Called (Getenv "DATABASE_URL"); Called (Getenv "DATABASE_NAME")].
Proof.
  intros W E w made. subst made.
  unfold test_database, local, bind, try_except, call, perform,
    ret, get, setitem, calls.
  cbn [run pbind fst snd].
  repeat first [answer E | case_scrutinee; cbn [run pbind fst snd]].
  all: split; [repeat constructor|split; [simpl; lia|reflexivity]].
Qed.

(** X9. The payload of [GET /test] lists at most ten collections: the
    first ten of the listing, in its order, when the listing succeeded,
    and none otherwise. *)
Theorem test_database_lists_ten :
  forall (W : Type) (E : env W) (w : W),
  exists payload shown,
    outcome (run E test_database w) = Ok payload /\
    content_get "collections" payload = Some (VList shown) /\
    (List.length shown <= 10)%nat /\
    (forall names, fst (probe E w) = Working names -> shown = firstn 10 names) /\
    (is_failure (fst (probe E w)) = true -> shown = []).
Proof.
  intros W E w. eexists. exists (collections_line (fst (probe E w))).
  split; [apply test_database_payload|]. split; [reflexivity|].
  destruct (fst (probe E w)) as [ | | | |names]; cbn [collections_line is_failure].
  5: { split; [apply firstn_le_length|]. split; [|discriminate].
       intros names' H. now inversion H. }
  all: split; [simpl; lia|]; split; [discriminate|reflexivity].
Qed.

Lemma str_take_len (n : nat) (s : string) : (str_len (str_take n s) <= n)%nat.
Proof.
  revert n. induction s as [|c s IH]; intros n; simpl; [lia|].
  destruct (is_continuation c) eqn:Hc; simpl.
  - rewrite Hc. apply IH.
  - destruct n as [|n]; simpl; [lia|]. rewrite Hc. specialize (IH n). lia.
Qed.

Lemma str_take_prefix (n : nat) (s : string) :
  exists rest, s = str_take n s ++ rest.
Proof.
  revert n. induction s as [|c s IH]; intros n; simpl; [now exists ""|].
  destruct (is_continuation c).
  - destruct (IH n) as [rest Hrest]. exists rest. simpl. now rewrite <- Hrest.
  - destruct n as [|n]; [now exists (String c s)|].
    destruct (IH n) as [rest Hrest]. exists rest. simpl. now rewrite <- Hrest.
Qed.

Lemma str_take_exact (n : nat) (s : string) :
  str_len (str_take n s) = Nat.min n (str_len s).
Proof.
  revert n. induction s as [|c s IH]; intros n; simpl; [now rewrite Nat.min_0_r|].
  destruct (is_continuation c) eqn:Hc; simpl.
  - rewrite Hc. apply IH.
  - destruct n as [|n]; simpl; [reflexivity|]. rewrite Hc. now rewrite IH.
Qed.

Lemma str_take_split (n : nat) (s : string) :
  exists rest, s = str_take n s ++ rest /\ at_boundary rest = true.
Proof.
  revert n. induction s as [|c s IH]; intros n; simpl; [now exists ""|].
  destruct (is_continuation c) eqn:Hc.
  - destruct (IH n) as [rest [Hrest Hb]]. exists rest. simpl.
    now rewrite <- Hrest.
  - destruct n as [|n].
    + exists (String c s). simpl. now rewrite Hc.
    + destruct (IH n) as [rest [Hrest Hb]]. exists rest. simpl.
      now rewrite <- Hrest.
Qed.

Lemma str_take_short (n : nat) (s : string) :
  (str_len s <= n)%nat -> str_take n s = s.
Proof.
  revert n. induction s as [|c s IH]; intros n; simpl; [reflexivity|].
  destruct (is_continuation c); intros H.
  - now rewrite (IH n H).
  - destruct n as [|n]; [lia|]. rewrite (IH n); [reflexivity|lia].
Qed.

(** X10. When the probe fails with an exception that is not an
    [ImportError], the database line is a fixed prefix followed by the
    text of the exception cut to its first 50 characters: the shown text
    is a start of the text that ends on a character boundary and has
    [min 50 (len (str e))] characters, so exactly 50 for a longer text,
    and the whole text when it has at most 50. *)
Theorem test_database_cuts_error_text :
  forall (W : Type) (E : env W) (w : W) (e : exn),
    fst (probe E w) = ListingFailed e \/ fst (probe E w) = ProbeFailed e ->
    exists payload shown,
      outcome (run E test_database w) = Ok payload /\
      content_get "database" payload
      = Some (VStr (failure_prefix (fst (probe E w)) ++ shown)) /\
      (str_len shown <= 50)%nat /\
      (exists rest, exn_str e = shown ++ rest) /\
      ((str_len (exn_str e) <= 50)%nat -> shown = exn_str e) /\
      str_len shown = Nat.min 50 (str_len (exn_str e)) /\
      (exists rest, exn_str e = shown ++ rest /\ at_boundary rest = true) /\
      ((50 < str_len (exn_str e))%nat -> str_len shown = 50%nat).
Proof.
  intros W E w e Hf. eexists. exists (str_take 50 (exn_str e)).
  split; [apply test_database_payload|].
  split.
  - cbn [content_get dict_get String.eqb Ascii.eqb Bool.eqb].
    destruct Hf as [-> | ->]; reflexivity.
  - split; [apply str_take_len|].
    split; [apply str_take_prefix|].
    split; [apply str_take_short|].
    split; [apply str_take_exact|].
    split; [apply str_take_split|].
    intros Hlong. rewrite str_take_exact. lia.
Qed.

(** X11. In the payload of [GET /test], [database_url] and
    [database_name] tell only whether the environment variable is set to
    a non-empty string: an unset or empty variable gives "Not Set", any
    other value "Set".  What the probe assigned to these two keys
    ([db.name] among it) never shows. *)
Theorem test_database_reports_environment :
  forall (W : Type) (E : env W) (w : W),
    let url := fst (E _ (Getenv "DATABASE_URL") (snd (probe E w))) in
    let name := fst (E _ (Getenv "DATABASE_NAME")
                       (snd (E _ (Getenv "DATABASE_URL") (snd (probe E w))))) in
    exists payload,
      outcome (run E test_database w) = Ok payload /\
      (url = None \/ url = Some "" ->
       content_get "database_url" payload = Some (VStr "❌ Not Set")) /\
      (forall s, url = Some s -> s <> "" ->
       content_get "database_url" payload = Some (VStr "✅ Set")) /\
      (name = None \/ name = Some "" ->
       content_get "database_name" payload = Some (VStr "❌ Not Set")) /\
      (forall s, name = Some s -> s <> "" ->
       content_get "database_name" payload = Some (VStr "✅ Set")).
Proof.
  intros W E w url name. eexists. split; [apply test_database_payload|].
  cbn [content_get dict_get String.eqb Ascii.eqb Bool.eqb]. fold url name.
  split; [|split; [|split]].
  - now intros [-> | ->].
  - intros s -> Hs. unfold set_line, truthy_env.
    apply String.eqb_neq in Hs. now rewrite Hs.
  - now intros [-> | ->].
  - intros s -> Hs. unfold set_line, truthy_env.
    apply String.eqb_neq in Hs. now rewrite Hs.
Qed.

End Backend.


(* ------------------------------------------------------------------ *)
(** ** Concrete runs *)

Lemma menu_and_reviews_never_empty_witness :
  falls_back no_database tt "menuitem" /\
  falls_back no_database tt "review" /\
  outcome (run no_database (get_menu no_int no_float plain_text) tt)
  = Ok (menu_defaults) /\
  outcome (run no_database (get_reviews no_int no_float plain_text) tt)
  = Ok (reviews_defaults).
Proof.
  pose proof (menu_and_reviews_never_empty no_int no_float plain_text unit no_database tt)
    as [_ [_ [Hm [Hr _]]]].
  split; [exact I|]. split; [exact I|].
  split; [exact (Hm I)|exact (Hr I)].
Defined.

Lemma invalid_document_gives_defaults_witness :
  (fst (db_import mem_env bad_store) = Ok (Some (Db 0)) /\
   In bad_menu_item [bad_menu_item] /\
   fst (db_read mem_env bad_store (Db 0) "menuitem") = Ok [bad_menu_item] /\
   init no_int no_float plain_text MenuItem bad_menu_item
   = Raise (ValidationError "MenuItem" (plain_text MenuItem bad_menu_item)) /\
   outcome (run mem_env (get_menu no_int no_float plain_text) bad_store) = Ok menu_defaults) /\
  (In bad_review [bad_review] /\
   fst (db_read mem_env bad_store (Db 0) "review") = Ok [bad_review] /\
   init no_int no_float plain_text Review bad_review
   = Raise (ValidationError "Review" (plain_text Review bad_review)) /\
   outcome (run mem_env (get_reviews no_int no_float plain_text) bad_store) = Ok reviews_defaults) /\
  (fst (db_read mem_env oversized_store (Db 0) "menuitem") = Ok [oversized_menu_item] /\
   init no_int no_float plain_text MenuItem oversized_menu_item
   = Raise (ValidationError "MenuItem" (plain_text MenuItem oversized_menu_item)) /\
   outcome (run mem_env (get_menu no_int no_float plain_text) oversized_store)
   = Ok menu_defaults) /\
  (fst (db_read mem_env oversized_store (Db 0) "review") = Ok [oversized_review] /\
   init no_int no_float plain_text Review oversized_review
   = Raise (ValidationError "Review" (plain_text Review oversized_review)) /\
   outcome (run mem_env (get_reviews no_int no_float plain_text) oversized_store)
   = Ok reviews_defaults).
Proof.
  split; [|split; [|split]].
  - split; [reflexivity|]. split; [left; reflexivity|].
    split; [vm_compute; reflexivity|]. split; [vm_compute; reflexivity|].
    apply (proj1 (invalid_document_gives_defaults no_int no_float plain_text store mem_env
                    bad_store (Db 0) [bad_menu_item] bad_menu_item
                    (ValidationError "MenuItem" (plain_text MenuItem bad_menu_item))
                    eq_refl (or_introl eq_refl)));
      vm_compute; reflexivity.
  - split; [left; reflexivity|].
    split; [vm_compute; reflexivity|]. split; [vm_compute; reflexivity|].
    apply (proj2 (invalid_document_gives_defaults no_int no_float plain_text store mem_env
                    bad_store (Db 0) [bad_review] bad_review
                    (ValidationError "Review" (plain_text Review bad_review))
                    eq_refl (or_introl eq_refl)));
      vm_compute; reflexivity.
  - split; [vm_compute; reflexivity|]. split; [vm_compute; reflexivity|].
    apply (proj1 (invalid_document_gives_defaults no_int no_float plain_text store mem_env
                    oversized_store (Db 0) [oversized_menu_item] oversized_menu_item
                    (ValidationError "MenuItem" (plain_text MenuItem oversized_menu_item))
                    eq_refl (or_introl eq_refl)));
      vm_compute; reflexivity.
  - split; [vm_compute; reflexivity|]. split; [vm_compute; reflexivity|].
    apply (proj2 (invalid_document_gives_defaults no_int no_float plain_text store mem_env
                    oversized_store (Db 0) [oversized_review] oversized_review
                    (ValidationError "Review" (plain_text Review oversized_review))
                    eq_refl (or_introl eq_refl)));
      vm_compute; reflexivity.
Defined.

Lemma seeding_happens_once_witness :
  fst (db_import mem_env empty_store) = Ok (Some (Db 0)) /\
  fst (db_read mem_env empty_store (Db 0) "menuitem") = Ok [] /\
  fst (db_read mem_env empty_store (Db 0) "review") = Ok [] /\
  (let first := run mem_env (get_menu no_int no_float plain_text) empty_store in
   let second := run mem_env (get_menu no_int no_float plain_text) (final first) in
   fst (db_read mem_env (final first) (Db 0) "menuitem")
   = Ok (map model_dump menu_defaults) /\
   outcome first = Ok menu_defaults /\
   outcome second = Ok menu_defaults /\
   Forall (fun c => is_insert_many c = false) (calls second)) /\
  (let first := run mem_env (get_reviews no_int no_float plain_text) empty_store in
   let second := run mem_env (get_reviews no_int no_float plain_text) (final first) in
   fst (db_read mem_env (final first) (Db 0) "review")
   = Ok (map model_dump reviews_defaults) /\
   outcome first = Ok reviews_defaults /\
   outcome second = Ok reviews_defaults /\
   Forall (fun c => is_insert_many c = false) (calls second)).
Proof.
  pose proof (seeding_happens_once no_int no_float plain_text store mem_env empty_store
                (Db 0) (Db 0) eq_refl) as [Hm [Hr _]].
  split; [reflexivity|]. split; [reflexivity|]. split; [reflexivity|].
  split.
  - intros first second.
    assert (Hread : fst (db_read mem_env (final first) (Db 0) "menuitem")
                    = Ok (map model_dump menu_defaults))
      by (vm_compute; reflexivity).
    destruct (Hm eq_refl eq_refl Hread) as [H1 [_ [H2 H3]]].
    split; [exact Hread|]. split; [exact H1|]. split; [exact H2|exact H3].
  - intros first second.
    assert (Hread : fst (db_read mem_env (final first) (Db 0) "review")
                    = Ok (map model_dump reviews_defaults))
      by (vm_compute; reflexivity).
    destruct (Hr eq_refl eq_refl Hread) as [H1 [_ [H2 H3]]].
    split; [exact Hread|]. split; [exact H1|]. split; [exact H2|exact H3].
Defined.

Lemma create_order_always_answers_witness :
  validate no_int no_float (TModel Order)
    (order_body sample_order (decimal 2390 2) (decimal 191 2) (decimal 2581 2))
  = Some (order_instance sample_order (decimal 2390 2) (decimal 191 2) (decimal 2581 2)) /\
  status (outcome (run mem_env
    (post_orders no_int no_float
       (order_body sample_order (decimal 2390 2) (decimal 191 2) (decimal 2581 2)))
    empty_store)) = 200 /\
  content (outcome (run mem_env
    (post_orders no_int no_float
       (order_body sample_order (decimal 2390 2) (decimal 191 2) (decimal 2581 2)))
    empty_store))
  = VDict [ ("id", VStr "0");
            ("message", VStr "Order received. We'll start the grill!") ] /\
  content (outcome (run no_database
    (post_orders no_int no_float
       (order_body sample_order (decimal 2390 2) (decimal 191 2) (decimal 2581 2)))
    tt))
  = VDict [ ("id", VNone);
            ("message", VStr "Order received (demo mode). We'll start the grill!") ].
Proof.
  assert (Hv : validate no_int no_float (TModel Order)
                 (order_body sample_order (decimal 2390 2) (decimal 191 2) (decimal 2581 2))
               = Some (order_instance sample_order (decimal 2390 2) (decimal 191 2)
                         (decimal 2581 2)))
    by (vm_compute; reflexivity).
  split; [exact Hv|].
  destruct (create_order_always_answers no_int no_float store mem_env empty_store
              _ _ Hv) as [Hs [_ [Hok [_ _]]]].
  destruct (create_order_always_answers no_int no_float unit no_database tt
              _ _ Hv) as [_ [_ [_ [Hdemo _]]]].
  split; [exact Hs|]. split.
  - exact (Hok "0" eq_refl).
  - exact (Hdemo (ImportError "No module named 'database'") eq_refl).
Defined.

Lemma field_constraints_enforced_witness :
  init no_int no_float plain_text Review
    (VDict [ ("name", VStr "Layla"); ("rating", VInt 6); ("quote", VStr "Six stars!") ])
  = Raise (ValidationError "Review" "validation error for Review") /\
  init no_int no_float plain_text MenuItem
    (VDict [ ("name", VStr "Burnt Wrap"); ("price", VFloat (decimal (-100) 2));
             ("category", VStr "wraps") ])
  = Raise (ValidationError "MenuItem" "validation error for MenuItem") /\
  init no_int no_float plain_text Review
    (VDict [ ("name", VStr "Anaya"); ("avatar", opt_str None); ("rating", VInt 4);
             ("quote", VStr "Loaded fries that belong in a music video.");
             ("platform", opt_str (Some "Google")) ])
  = Ok (VModel "Review"
          [ ("name", VStr "Anaya"); ("avatar", opt_str None); ("rating", VInt 4);
            ("quote", VStr "Loaded fries that belong in a music video.");
            ("platform", opt_str (Some "Google")) ]) /\
  init no_int no_float plain_text MenuItem
    (VDict [ ("name", VStr "Loaded City Fries"); ("description", opt_str None);
             ("price", VFloat (decimal 875 2)); ("category", VStr "fries");
             ("image", opt_str None); ("media", opt_str None);
             ("rating", VFloat (decimal 47 1)); ("ratings_count", VInt 228) ])
  = Ok (VModel "MenuItem"
          [ ("name", VStr "Loaded City Fries"); ("description", opt_str None);
            ("price", VFloat (decimal 875 2)); ("category", VStr "fries");
            ("image", opt_str None); ("media", opt_str None);
            ("rating", VFloat (decimal 47 1)); ("ratings_count", VInt 228) ]).
Proof.
  destruct (field_constraints_enforced no_int no_float plain_text) as [Hr [Hp [Hr' [Hm' _]]]].
  split; [|split; [|split]].
  - apply (Hr _ (VInt 6) 6); [reflexivity|reflexivity|right; lia].
  - apply (Hp _ (VFloat (decimal (-100) 2)) (decimal (-100) 2));
      [reflexivity|reflexivity|vm_compute; reflexivity].
  - apply Hr'. lia.
  - apply Hm'; [vm_compute; reflexivity|vm_compute; reflexivity
               |vm_compute; reflexivity|lia].
Defined.

Lemma collections_named_after_classes_witness :
  fst (db_import mem_env empty_store) = Ok (Some (Db 0)) /\
  fst (mem_env _ ImportCreateDocument empty_store) = Ok tt /\
  calls (run mem_env (get_menu no_int no_float plain_text) empty_store) =
    [Called ImportDb;
     Called (Find (Db 0) "menuitem" (VDict []) (VDict [("_id", VInt 0)]));
     Called (InsertMany (Db 0) "menuitem" (map model_dump menu_defaults))] /\
  calls (run mem_env (get_reviews no_int no_float plain_text) empty_store) =
    [Called ImportDb;
     Called (Find (Db 0) "review" (VDict []) (VDict [("_id", VInt 0)]));
     Called (InsertMany (Db 0) "review" (map model_dump reviews_defaults))] /\
  calls (run mem_env (create_order (order_instance sample_order
           (decimal 2390 2) (decimal 191 2) (decimal 2581 2))) empty_store) =
    [Called ImportCreateDocument;
     Called (CreateDocument "order" (order_instance sample_order
               (decimal 2390 2) (decimal 191 2) (decimal 2581 2)))].
Proof.
  destruct (collections_named_after_classes no_int no_float plain_text store mem_env
              empty_store (order_instance sample_order
                             (decimal 2390 2) (decimal 191 2) (decimal 2581 2)))
    as [_ [_ [_ [_ [Hm [Hr Ho]]]]]].
  split; [reflexivity|]. split; [reflexivity|].
  split; [exact (Hm (Db 0) eq_refl eq_refl)|].
  split; [exact (Hr (Db 0) eq_refl eq_refl)|exact (Ho eq_refl)].
Defined.

Lemma order_item_unconstrained_witness :
  dict_get "price" [ ("name", VStr "Burnt Wrap"); ("price", VInt (-3));
                     ("category", VStr "wraps") ] = Some (VInt (-3)) /\
  validate no_int no_float TFloat (VInt (-3)) = Some (VFloat (float_of_int (-3))) /\
  SFltb (float_of_int (-3)) (float_of_int 0) = true /\
  init no_int no_float plain_text MenuItem
    (VDict [ ("name", VStr "Burnt Wrap"); ("price", VInt (-3));
             ("category", VStr "wraps") ])
  = Raise (ValidationError "MenuItem" "validation error for MenuItem").
Proof.
  split; [reflexivity|]. split; [reflexivity|]. split; [vm_compute; reflexivity|].
  apply (proj2 (proj2 (proj2 (proj2 (order_item_unconstrained no_int no_float plain_text))))
           _ (VInt (-3)) (float_of_int (-3)));
    [reflexivity|reflexivity|vm_compute; reflexivity].
Defined.

Lemma test_database_never_raises_witness :
  is_failure (fst (probe no_database tt)) = true /\
  database_line (fst (probe no_database tt)) <> "✅ Connected & Working" /\
  outcome (run no_database test_database tt)
  = Ok (VDict
          [ ("backend", VStr "✅ Running");
            ("database",
             VStr "❌ Database module not found (run enable-database first)");
            ("database_url", VStr "❌ Not Set");
            ("database_name", VStr "❌ Not Set");
            ("connection_status", VStr "Not Connected");
            ("collections", VList []) ]).
Proof.
  destruct (test_database_never_raises unit no_database tt) as [Ho [_ Hf]].
  split; [reflexivity|]. split; [exact (Hf eq_refl)|exact Ho].
Defined.

Lemma schema_has_three_shapes_witness :
  In "orderitem" [ "user"; "User"; "product"; "Product"; "orderitem"; "OrderItem" ] /\
  exists document,
    run mem_env (get_schema schema_title) empty_store
    = (Ok (VDict document), empty_store, []) /\
    dict_get "orderitem" document = None.
Proof.
  split; [simpl; tauto|].
  destruct (schema_has_three_shapes schema_title store mem_env empty_store)
    as [document [Hrun [_ [_ [_ Hnone]]]]].
  exists document. split; [exact Hrun|].
  apply Hnone. simpl. tauto.
Defined.

(* ------------------------------------------------------------------ *)
(** ** Concrete runs of the further properties *)

Lemma dumped_item_reads_back_witness :
  init no_int no_float plain_text MenuItem stored_menu_item
  = Ok (VModel "MenuItem"
          [ ("name", VStr "Smoky Falafel Wrap"); ("description", VNone);
            ("price", VFloat (float_of_int 9)); ("category", VStr "wraps");
            ("image", VNone); ("media", VNone);
            ("rating", VFloat (decimal 48 1)); ("ratings_count", VInt 0) ]) /\
  init no_int no_float plain_text MenuItem
    (model_dump
       (VModel "MenuItem"
          [ ("name", VStr "Smoky Falafel Wrap"); ("description", VNone);
            ("price", VFloat (float_of_int 9)); ("category", VStr "wraps");
            ("image", VNone); ("media", VNone);
            ("rating", VFloat (decimal 48 1)); ("ratings_count", VInt 0) ]))
  = Ok (VModel "MenuItem"
          [ ("name", VStr "Smoky Falafel Wrap"); ("description", VNone);
            ("price", VFloat (float_of_int 9)); ("category", VStr "wraps");
            ("image", VNone); ("media", VNone);
            ("rating", VFloat (decimal 48 1)); ("ratings_count", VInt 0) ]) /\
  init no_int no_float plain_text Review
    (model_dump
       (VModel "Review"
          [ ("name", VStr "Marco"); ("avatar", VNone); ("rating", VInt 5);
            ("quote", VStr "Beef skewers with that ember glaze… perfection.");
            ("platform", VNone) ]))
  = Ok (VModel "Review"
          [ ("name", VStr "Marco"); ("avatar", VNone); ("rating", VInt 5);
            ("quote", VStr "Beef skewers with that ember glaze… perfection.");
            ("platform", VNone) ]).
Proof.
  assert (Hm : init no_int no_float plain_text MenuItem stored_menu_item
               = Ok (VModel "MenuItem"
                       [ ("name", VStr "Smoky Falafel Wrap"); ("description", VNone);
                         ("price", VFloat (float_of_int 9)); ("category", VStr "wraps");
                         ("image", VNone); ("media", VNone);
                         ("rating", VFloat (decimal 48 1)); ("ratings_count", VInt 0) ]))
    by (vm_compute; reflexivity).
  assert (Hr : init no_int no_float plain_text Review stored_review
               = Ok (VModel "Review"
                       [ ("name", VStr "Marco"); ("avatar", VNone); ("rating", VInt 5);
                         ("quote", VStr "Beef skewers with that ember glaze… perfection.");
                         ("platform", VNone) ]))
    by (vm_compute; reflexivity).
  split; [exact Hm|]. split.
  - exact (proj1 (dumped_item_reads_back no_int no_float plain_text _ _) Hm).
  - exact (proj2 (dumped_item_reads_back no_int no_float plain_text _ _) Hr).
Defined.

Lemma required_fields_enforced_witness :
  In "price" (required_names MenuItem) /\
  dict_get "price" [ ("name", VStr "Smoky Falafel Wrap"); ("category", VStr "wraps") ]
  = None /\
  init no_int no_float plain_text MenuItem
    (VDict [ ("name", VStr "Smoky Falafel Wrap"); ("category", VStr "wraps") ])
  = Raise (ValidationError "MenuItem" "validation error for MenuItem") /\
  In "items" (required_names Order) /\
  validate no_int no_float (TModel Order) (VDict []) = None.
Proof.
  destruct (required_fields_enforced no_int no_float plain_text) as [_ [_ [_ [_ H]]]].
  split; [simpl; auto|]. split; [reflexivity|].
  split; [|split; [simpl; auto|]].
  - apply (proj1 (H MenuItem "price"
                    [ ("name", VStr "Smoky Falafel Wrap"); ("category", VStr "wraps") ]
                    (or_intror (or_introl eq_refl)) eq_refl)).
  - apply (proj2 (H Order "items" [] (or_introl eq_refl) eq_refl)).
Defined.

Lemma missing_fields_take_defaults_witness :
  In MenuItem classes /\
  In (Field "rating" TFloat (Some (VFloat (decimal 48 1))) (Some 0) (Some 5)
        (Some "Average rating")) (model_fields MenuItem) /\
  dict_get "rating" [ ("name", VStr "Smoky Falafel Wrap"); ("price", VInt 9);
                      ("category", VStr "wraps"); ("_id", VStr "7") ] = None /\
  attr "rating"
    (VModel "MenuItem"
       [ ("name", VStr "Smoky Falafel Wrap"); ("description", VNone);
         ("price", VFloat (float_of_int 9)); ("category", VStr "wraps");
         ("image", VNone); ("media", VNone);
         ("rating", VFloat (decimal 48 1)); ("ratings_count", VInt 0) ])
  = Some (VFloat (decimal 48 1)).
Proof.
  split; [simpl; auto|]. split; [simpl; auto 10|]. split; [reflexivity|].
  apply (missing_fields_take_defaults no_int no_float plain_text MenuItem
           (Field "rating" TFloat (Some (VFloat (decimal 48 1))) (Some 0) (Some 5)
              (Some "Average rating"))
           (VFloat (decimal 48 1))
           [ ("name", VStr "Smoky Falafel Wrap"); ("price", VInt 9);
             ("category", VStr "wraps"); ("_id", VStr "7") ]).
  - simpl; auto.
  - simpl; auto 10.
  - reflexivity.
  - reflexivity.
  - vm_compute; reflexivity.
Defined.

Lemma bad_item_refuses_order_witness :
  validate no_int no_float (TModel OrderItem)
    (VDict [ ("name", VStr "Loaded City Fries"); ("price", VFloat (decimal 875 2));
             ("quantity", VFloat ten_to_19) ]) = None /\
  status (outcome (run mem_env
    (post_orders no_int no_float
       (VDict [ ("items", VList [ item_body "Ember Beef Skewers" (decimal 145 1) 1;
                                  VDict [ ("name", VStr "Loaded City Fries");
                                          ("price", VFloat (decimal 875 2));
                                          ("quantity", VFloat ten_to_19) ] ]);
                ("subtotal", VInt 12); ("tax", VInt 1); ("total", VInt 13) ]))
    empty_store)) = 422 /\
  final (run mem_env
    (post_orders no_int no_float
       (VDict [ ("items", VList [ item_body "Ember Beef Skewers" (decimal 145 1) 1;
                                  VDict [ ("name", VStr "Loaded City Fries");
                                          ("price", VFloat (decimal 875 2));
                                          ("quantity", VFloat ten_to_19) ] ]);
                ("subtotal", VInt 12); ("tax", VInt 1); ("total", VInt 13) ]))
    empty_store) = empty_store /\
  calls (run mem_env
    (post_orders no_int no_float
       (VDict [ ("items", VList [ item_body "Ember Beef Skewers" (decimal 145 1) 1;
                                  VDict [ ("name", VStr "Loaded City Fries");
                                          ("price", VFloat (decimal 875 2));
                                          ("quantity", VFloat ten_to_19) ] ]);
                ("subtotal", VInt 12); ("tax", VInt 1); ("total", VInt 13) ]))
    empty_store) = [].
Proof.
  assert (Hbad : validate no_int no_float (TModel OrderItem)
                   (VDict [ ("name", VStr "Loaded City Fries");
                            ("price", VFloat (decimal 875 2));
                            ("quantity", VFloat ten_to_19) ]) = None)
    by (vm_compute; reflexivity).
  split; [exact Hbad|].
  destruct (bad_item_refuses_order no_int no_float
              [ ("items", VList [ item_body "Ember Beef Skewers" (decimal 145 1) 1;
                                  VDict [ ("name", VStr "Loaded City Fries");
                                          ("price", VFloat (decimal 875 2));
                                          ("quantity", VFloat ten_to_19) ] ]);
                ("subtotal", VInt 12); ("tax", VInt 1); ("total", VInt 13) ]
              [ item_body "Ember Beef Skewers" (decimal 145 1) 1;
                VDict [ ("name", VStr "Loaded City Fries");
                        ("price", VFloat (decimal 875 2));
                        ("quantity", VFloat ten_to_19) ] ]
              (VDict [ ("name", VStr "Loaded City Fries");
                       ("price", VFloat (decimal 875 2));
                       ("quantity", VFloat ten_to_19) ])
              store mem_env empty_store eq_refl (or_intror (or_introl eq_refl)) Hbad)
    as [_ [Hs [Hf Hc]]].
  split; [exact Hs|]. split; [exact Hf|exact Hc].
Defined.

Lemma order_stored_as_validated_witness :
  validate no_int no_float (TModel Order)
    (VDict [ ("items", VList [ VDict [ ("name", VStr "Loaded City Fries");
                                       ("price", VFloat (decimal 875 2)) ] ]);
             ("subtotal", VFloat (decimal 875 2)); ("tax", VFloat (decimal 70 2));
             ("total", VFloat (decimal 945 2)) ])
  = Some (order_instance [ ("Loaded City Fries", decimal 875 2, 1) ]
            (decimal 875 2) (decimal 70 2) (decimal 945 2)) /\
  calls (run mem_env
    (post_orders no_int no_float
       (VDict [ ("items", VList [ VDict [ ("name", VStr "Loaded City Fries");
                                          ("price", VFloat (decimal 875 2)) ] ]);
                ("subtotal", VFloat (decimal 875 2)); ("tax", VFloat (decimal 70 2));
                ("total", VFloat (decimal 945 2)) ]))
    empty_store)
  = [ Called ImportCreateDocument;
      Called (CreateDocument "order"
                (order_instance [ ("Loaded City Fries", decimal 875 2, 1) ]
                   (decimal 875 2) (decimal 70 2) (decimal 945 2))) ] /\
  calls (run no_database
    (post_orders no_int no_float
       (VDict [ ("items", VList [ VDict [ ("name", VStr "Loaded City Fries");
                                          ("price", VFloat (decimal 875 2)) ] ]);
                ("subtotal", VFloat (decimal 875 2)); ("tax", VFloat (decimal 70 2));
                ("total", VFloat (decimal 945 2)) ]))
    tt)
  = [ Called ImportCreateDocument ].
Proof.
  assert (Hv : validate no_int no_float (TModel Order)
                 (VDict [ ("items", VList [ VDict [ ("name", VStr "Loaded City Fries");
                                                    ("price", VFloat (decimal 875 2)) ] ]);
                          ("subtotal", VFloat (decimal 875 2));
                          ("tax", VFloat (decimal 70 2));
                          ("total", VFloat (decimal 945 2)) ])
               = Some (order_instance [ ("Loaded City Fries", decimal 875 2, 1) ]
                         (decimal 875 2) (decimal 70 2) (decimal 945 2)))
    by (vm_compute; reflexivity).
  split; [exact Hv|]. split.
  - exact (proj1 (proj1 (order_stored_as_validated no_int no_float store mem_env
                           empty_store _ _ Hv) eq_refl)).
  - exact (proj1 (proj2 (order_stored_as_validated no_int no_float unit no_database
                           tt _ _ Hv)
                    (ImportError "No module named 'database'") eq_refl)).
Defined.

Lemma test_database_lists_ten_witness :
  fst (probe mem_env stocked_store) = Working [VStr "menuitem"; VStr "review"] /\
  exists payload,
    outcome (run mem_env test_database stocked_store) = Ok payload /\
    content_get "collections" payload = Some (VList [VStr "menuitem"; VStr "review"]).
Proof.
  assert (Hp : fst (probe mem_env stocked_store)
               = Working [VStr "menuitem"; VStr "review"]) by reflexivity.
  split; [exact Hp|].
  destruct (test_database_lists_ten store mem_env stocked_store)
    as [payload [shown [Ho [Hc [_ [Hw _]]]]]].
  exists payload. split; [exact Ho|].
  rewrite Hc. rewrite (Hw _ Hp). reflexivity.
Defined.

Lemma test_database_cuts_error_text_witness :
  fst (probe listing_fails tt)
  = ListingFailed
      (OtherException "ServerSelectionTimeoutError"
         "localhost:27017: [Errno 111] Connection refused, Timeout: 30s, Topology Description: unknown") /\
  exists payload shown,
    outcome (run listing_fails test_database tt) = Ok payload /\
    content_get "database" payload
    = Some (VStr ("⚠️  Connected but Error: " ++ shown)) /\
    str_len shown = 50%nat.
Proof.
  split; [reflexivity|].
  destruct (test_database_cuts_error_text unit listing_fails tt
              (OtherException "ServerSelectionTimeoutError"
                 "localhost:27017: [Errno 111] Connection refused, Timeout: 30s, Topology Description: unknown")
              (or_introl eq_refl))
    as [payload [shown [Ho [Hc [_ [_ [_ [_ [_ Hlong]]]]]]]]].
  exists payload, shown. split; [exact Ho|]. split; [exact Hc|].
  apply Hlong. vm_compute. repeat constructor.
Defined.

Lemma test_database_reports_environment_witness :
  fst (mem_env _ (Getenv "DATABASE_URL") (snd (probe mem_env stocked_store)))
  = Some "mongodb://localhost:27017" /\
  fst (mem_env _ (Getenv "DATABASE_NAME")
         (snd (mem_env _ (Getenv "DATABASE_URL") (snd (probe mem_env stocked_store)))))
  = Some "" /\
  exists payload,
    outcome (run mem_env test_database stocked_store) = Ok payload /\
    content_get "database_url" payload = Some (VStr "✅ Set") /\
    content_get "database_name" payload = Some (VStr "❌ Not Set").
Proof.
  split; [reflexivity|]. split; [reflexivity|].
  destruct (test_database_reports_environment store mem_env stocked_store)
    as [payload [Ho [_ [Hurl [Hname _]]]]].
  exists payload. split; [exact Ho|]. split.
  - apply (Hurl "mongodb://localhost:27017" eq_refl). discriminate.
  - apply Hname. right. reflexivity.
Defined.

Lemma stored_documents_returned_in_order_witness :
  fst (db_import mem_env stocked_store) = Ok (Some (Db 0)) /\
  fst (db_read mem_env stocked_store (Db 0) "menuitem")
  = Ok [ VDict [ ("name", VStr "Smoky Falafel Wrap"); ("price", VInt 9);
                 ("category", VStr "wraps") ] ] /\
  fst (db_read mem_env stocked_store (Db 0) "review") = Ok [stored_review] /\
  (exists items,
     run mem_env (get_menu no_int no_float plain_text) stocked_store
     = (Ok items, stocked_store,
        [Called ImportDb;
         Called (Find (Db 0) "menuitem" (VDict []) (VDict [("_id", VInt 0)]))]) /\
     List.length items = 1%nat) /\
  (exists items,
     run mem_env (get_reviews no_int no_float plain_text) stocked_store
     = (Ok items, stocked_store,
        [Called ImportDb;
         Called (Find (Db 0) "review" (VDict []) (VDict [("_id", VInt 0)]))]) /\
     List.length items = 1%nat).
Proof.
  split; [reflexivity|]. split; [reflexivity|]. split; [reflexivity|]. split.
  - destruct (proj1 (stored_documents_returned_in_order no_int no_float plain_text store mem_env
                       stocked_store (Db 0)
                       [ VDict [ ("name", VStr "Smoky Falafel Wrap"); ("price", VInt 9);
                                 ("category", VStr "wraps") ] ]
                       eq_refl ltac:(discriminate)) eq_refl) as [items [Hrun Hall]].
    + intros doc [<-|[]]. eexists. vm_compute. reflexivity.
    + exists items. split; [exact Hrun|].
      inversion Hall as [|? ? ? ? _ Htl]; inversion Htl; reflexivity.
  - destruct (proj2 (stored_documents_returned_in_order no_int no_float plain_text store mem_env
                       stocked_store (Db 0) [stored_review]
                       eq_refl ltac:(discriminate)) eq_refl) as [items [Hrun Hall]].
    + intros doc [<-|[]]. eexists. vm_compute. reflexivity.
    + exists items. split; [exact Hrun|].
      inversion Hall as [|? ? ? ? _ Htl]; inversion Htl; reflexivity.
Defined.
